(** * Phonenix-AI: agent configuration and prompt rendering

    A shallow embedding of [src/phonenix_agent/config.py] (the entity
    classes, [AgentConfig] and [AgentConfigBuilder]) and of
    [src/utils/prompt.py] ([PromptBuilder]), followed by the properties
    of the configuration-to-prompt pipeline.

    Python values are dynamically typed: a field annotated [List[str]]
    may hold [None] at run time, and [from_dict] stores whatever the
    mapping binds.  The entities below therefore carry values of the
    universal type [Py.value]; the fragment covered is the JSON-like one
    (None, bool, int, str, list, dict with string keys).  A [str] is
    represented by its UTF-8 bytes.  Exceptions are results. *)

From Stdlib Require Import String Ascii List ZArith Lia Bool DecimalString.
From stdpp Require Import gmap.
Import ListNotations.
Local Open Scope string_scope.
Set Warnings "-register-all".

(* ================================================================== *)
(** * Python values, dictionaries and exceptions                        *)
(* ================================================================== *)

Module Py.

Inductive value :=
| VNone
| VBool (b : bool)
| VInt (z : Z)
| VStr (s : string)
| VList (xs : list value)
| VDict (kvs : list (string * value)).

(** A dict keeps its keys in insertion order. *)
Definition dict := list (string * value).

(** [bool(v)]: None, False, 0 and the empty str, list and dict are falsy. *)
Definition truthy (v : value) : bool :=
  match v with
  | VNone => false
  | VBool b => b
  | VInt z => negb (z =? 0)%Z
  | VStr s => negb (s =? "")
  | VList xs => match xs with [] => false | _ => true end
  | VDict kvs => match kvs with [] => false | _ => true end
  end.

(** [x or d] *)
Definition or_ (x d : value) : value := if truthy x then x else d.

(** A keyword argument with a default in the signature:
    [None] when the call omits it. *)
Definition kwarg (given : option value) (dflt : value) : value :=
  match given with Some v => v | None => dflt end.

Fixpoint lookup (d : dict) (k : string) : option value :=
  match d with
  | [] => None
  | (k', v) :: rest => if k' =? k then Some v else lookup rest k
  end.

(** [d.get(k, dflt)] on a dict. *)
Definition get (d : dict) (k : string) (dflt : value) : value :=
  match lookup d k with Some v => v | None => dflt end.

(** [d[k] = v]: an existing key keeps its position, a new one goes last. *)
Fixpoint setitem (d : dict) (k : string) (v : value) : dict :=
  match d with
  | [] => [(k, v)]
  | (k', v') :: rest =>
      if k' =? k then (k, v) :: rest else (k', v') :: setitem rest k v
  end.

Inductive exn := AttributeError | TypeError.

Inductive result (A : Type) :=
| Ok (a : A)
| Raise (e : exn).
Arguments Ok {A} a.
Arguments Raise {A} e.

#[export] Instance result_ret : MRet result := @Ok.
#[export] Instance result_bind : MBind result :=
  fun A B f r => match r with Ok a => f a | Raise e => Raise e end.

Definition is_ok {A} (r : result A) : bool :=
  match r with Ok _ => true | Raise _ => false end.

(** [data.get(k, dflt)] on an arbitrary object: only a dict has [get]. *)
Definition obj_get (data : value) (k : string) (dflt : value) : result value :=
  match data with
  | VDict d => Ok (get d k dflt)
  | _ => Raise AttributeError
  end.

(** ** Strings *)

Definition nl : string := String "010" "".

(** The code points of a str: a byte of the form 10xxxxxx continues the
    code point begun before it. *)
Definition is_continuation (c : ascii) : bool :=
  let n := nat_of_ascii c in (128 <=? n)%nat && (n <? 192)%nat.

Fixpoint take_continuation (s : string) : string * string :=
  match s with
  | String c rest =>
      if is_continuation c
      then let '(h, t) := take_continuation rest in (String c h, t)
      else ("", s)
  | EmptyString => ("", "")
  end.

Fixpoint codepoints_fuel (n : nat) (s : string) : list string :=
  match n, s with
  | S n', String c rest =>
      let '(h, t) := take_continuation rest in
      String c h :: codepoints_fuel n' t
  | _, _ => []
  end.

Definition codepoints (s : string) : list string :=
  codepoints_fuel (String.length s) s.

Fixpoint all_str (xs : list value) : option (list string) :=
  match xs with
  | [] => Some []
  | VStr s :: rest =>
      match all_str rest with Some l => Some (s :: l) | None => None end
  | _ :: _ => None
  end.

(** [sep.join(v)]: [v] must be iterable and yield only str. Iterating a
    str yields its code points, iterating a dict its keys. *)
Definition join (sep : string) (v : value) : result string :=
  match v with
  | VList xs =>
      match all_str xs with
      | Some l => Ok (String.concat sep l)
      | None => Raise TypeError
      end
  | VStr s => Ok (String.concat sep (codepoints s))
  | VDict kvs => Ok (String.concat sep (map fst kvs))
  | VNone | VBool _ | VInt _ => Raise TypeError
  end.

(** [s.replace(old, new)] for a one-byte [old]. *)
Fixpoint replace (old : ascii) (new : string) (s : string) : string :=
  match s with
  | EmptyString => EmptyString
  | String c rest =>
      if Ascii.eqb c old then new ++ replace old new rest
      else String c (replace old new rest)
  end.

(** [str.strip()] removes the code points for which [str.isspace()]
    holds, here listed by their UTF-8 encodings. *)
Definition bytes (l : list nat) : string :=
  string_of_list_ascii (map ascii_of_nat l).

Definition whitespace : list string :=
  map (fun n => bytes [n]) [9; 10; 11; 12; 13; 28; 29; 30; 31; 32]
  ++ [bytes [194; 133]; bytes [194; 160]; bytes [225; 154; 128]]
  ++ map (fun n => bytes [226; 128; n])
       [128; 129; 130; 131; 132; 133; 134; 135; 136; 137; 138; 168; 169; 175]
  ++ [bytes [226; 129; 159]; bytes [227; 128; 128]].

Fixpoint drop (n : nat) (s : string) : string :=
  match n, s with
  | S n', String _ rest => drop n' rest
  | _, _ => s
  end.

Definition rev_string (s : string) : string :=
  string_of_list_ascii (rev (list_ascii_of_string s)).

Fixpoint lstrip_fuel (ws : list string) (n : nat) (s : string) : string :=
  match n with
  | O => s
  | S n' =>
      match find (fun w => String.prefix w s) ws with
      | Some w => lstrip_fuel ws n' (drop (String.length w) s)
      | None => s
      end
  end.

Definition lstrip (s : string) : string :=
  lstrip_fuel whitespace (String.length s) s.

Definition rstrip (s : string) : string :=
  rev_string
    (lstrip_fuel (map rev_string whitespace) (String.length s) (rev_string s)).

Definition strip (s : string) : string := lstrip (rstrip s).

(** ** Formatting *)

Section Formatting.

(** [repr] of a list or dict is Python's own; it is left abstract. *)
Variable repr_container : value -> string.

(** [str(v)], which is what an f-string field [{v}] inserts. *)
Definition str (v : value) : string :=
  match v with
  | VNone => "None"
  | VBool true => "True"
  | VBool false => "False"
  | VInt z => NilZero.string_of_int (Z.to_int z)
  | VStr s => s
  | VList _ | VDict _ => repr_container v
  end.

End Formatting.

End Py.

Import Py.

(* ================================================================== *)
(** * config.py: the entity classes                                     *)
(* ================================================================== *)

(** In every [__init__] below a parameter of type [option value] is a
    keyword parameter whose default in the signature is [None]; the
    caller passes [None] (of [option]) when it omits the argument. *)

Module AgentPersonality.

Record t := mk {
  traits : value;
  communication_style : value;
  tone : value;
  expertise_level : value;
  response_speed : value
}.

Definition __init__ (traits communication_style : value)
    (tone expertise_level response_speed : option value) : t :=
  {| traits := traits;
     communication_style := communication_style;
     tone := or_ (kwarg tone VNone) (VStr "professional");
     expertise_level := or_ (kwarg expertise_level VNone) (VStr "expert");
     response_speed := or_ (kwarg response_speed VNone) (VStr "conversational") |}.

Definition to_dict (self : t) : dict :=
  [ ("traits", traits self);
    ("communication_style", communication_style self);
    ("tone", tone self);
    ("expertise_level", expertise_level self);
    ("response_speed", response_speed self) ].

Definition from_dict (data : value) : result t :=
  traits ← obj_get data "traits" (VList []);
  communication_style ← obj_get data "communication_style" (VStr "professional");
  tone ← obj_get data "tone" VNone;
  expertise_level ← obj_get data "expertise_level" VNone;
  response_speed ← obj_get data "response_speed" VNone;
  Ok (__init__ traits communication_style
        (Some tone) (Some expertise_level) (Some response_speed)).

End AgentPersonality.

Module CompanyDetails.

Record t := mk {
  name : value;
  description : value;
  specialties : value;
  location : value;
  years_in_business : value;
  website : value;
  phone : value;
  email : value;
  mission_statement : value;
  values : value
}.

Definition __init__ (name : value)
    (description specialties location years_in_business website phone email
     mission_statement values : option value) : t :=
  {| name := name;
     description := kwarg description VNone;
     specialties := or_ (kwarg specialties VNone) (VList []);
     location := kwarg location VNone;
     years_in_business := kwarg years_in_business VNone;
     website := kwarg website VNone;
     phone := kwarg phone VNone;
     email := kwarg email VNone;
     mission_statement := kwarg mission_statement VNone;
     values := or_ (kwarg values VNone) (VList []) |}.

Definition to_dict (self : t) : dict :=
  [ ("name", name self);
    ("description", description self);
    ("specialties", specialties self);
    ("location", location self);
    ("years_in_business", years_in_business self);
    ("website", website self);
    ("phone", phone self);
    ("email", email self);
    ("mission_statement", mission_statement self);
    ("values", values self) ].

Definition from_dict (data : value) : result t :=
  name ← obj_get data "name" (VStr "");
  description ← obj_get data "description" VNone;
  specialties ← obj_get data "specialties" VNone;
  location ← obj_get data "location" VNone;
  years_in_business ← obj_get data "years_in_business" VNone;
  website ← obj_get data "website" VNone;
  phone ← obj_get data "phone" VNone;
  email ← obj_get data "email" VNone;
  mission_statement ← obj_get data "mission_statement" VNone;
  values ← obj_get data "values" VNone;
  Ok (__init__ name (Some description) (Some specialties) (Some location)
        (Some years_in_business) (Some website) (Some phone) (Some email)
        (Some mission_statement) (Some values)).

End CompanyDetails.

Module UserContext.

Record t := mk {
  name : value;
  email : value;
  phone : value;
  preferences : value;
  previous_interactions : value;
  notes : value;
  demographics : value;
  pain_points : value;
  goals : value;
  budget : value;
  timeline : value
}.

Definition __init__
    (name email phone preferences previous_interactions notes demographics
     pain_points goals budget timeline : option value) : t :=
  {| name := kwarg name VNone;
     email := kwarg email VNone;
     phone := kwarg phone VNone;
     preferences := or_ (kwarg preferences VNone) (VDict []);
     previous_interactions := or_ (kwarg previous_interactions VNone) (VList []);
     notes := kwarg notes VNone;
     demographics := or_ (kwarg demographics VNone) (VDict []);
     pain_points := or_ (kwarg pain_points VNone) (VList []);
     goals := or_ (kwarg goals VNone) (VList []);
     budget := kwarg budget VNone;
     timeline := kwarg timeline VNone |}.

Definition to_dict (self : t) : dict :=
  [ ("name", name self);
    ("email", email self);
    ("phone", phone self);
    ("preferences", preferences self);
    ("previous_interactions", previous_interactions self);
    ("notes", notes self);
    ("demographics", demographics self);
    ("pain_points", pain_points self);
    ("goals", goals self);
    ("budget", budget self);
    ("timeline", timeline self) ].

Definition from_dict (data : value) : result t :=
  name ← obj_get data "name" VNone;
  email ← obj_get data "email" VNone;
  phone ← obj_get data "phone" VNone;
  preferences ← obj_get data "preferences" VNone;
  previous_interactions ← obj_get data "previous_interactions" VNone;
  notes ← obj_get data "notes" VNone;
  demographics ← obj_get data "demographics" VNone;
  pain_points ← obj_get data "pain_points" VNone;
  goals ← obj_get data "goals" VNone;
  budget ← obj_get data "budget" VNone;
  timeline ← obj_get data "timeline" VNone;
  Ok (__init__ (Some name) (Some email) (Some phone) (Some preferences)
        (Some previous_interactions) (Some notes) (Some demographics)
        (Some pain_points) (Some goals) (Some budget) (Some timeline)).

End UserContext.

Module CallContext.

Record t := mk {
  purpose : value;
  priority : value;
  expected_duration : value;
  follow_up_required : value;
  success_metrics : value;
  call_script : value;
  key_points : value
}.

Definition __init__ (purpose : value)
    (priority expected_duration follow_up_required success_metrics
     call_script key_points : option value) : t :=
  {| purpose := purpose;
     priority := or_ (kwarg priority VNone) (VStr "normal");
     expected_duration := kwarg expected_duration VNone;
     follow_up_required := or_ (kwarg follow_up_required VNone) (VBool false);
     success_metrics := or_ (kwarg success_metrics VNone) (VList []);
     call_script := kwarg call_script VNone;
     key_points := or_ (kwarg key_points VNone) (VList []) |}.

Definition to_dict (self : t) : dict :=
  [ ("purpose", purpose self);
    ("priority", priority self);
    ("expected_duration", expected_duration self);
    ("follow_up_required", follow_up_required self);
    ("success_metrics", success_metrics self);
    ("call_script", call_script self);
    ("key_points", key_points self) ].

Definition from_dict (data : value) : result t :=
  purpose ← obj_get data "purpose" (VStr "");
  priority ← obj_get data "priority" VNone;
  expected_duration ← obj_get data "expected_duration" VNone;
  follow_up_required ← obj_get data "follow_up_required" VNone;
  success_metrics ← obj_get data "success_metrics" VNone;
  call_script ← obj_get data "call_script" VNone;
  key_points ← obj_get data "key_points" VNone;
  Ok (__init__ purpose (Some priority) (Some expected_duration)
        (Some follow_up_required) (Some success_metrics) (Some call_script)
        (Some key_points)).

End CallContext.

(* ================================================================== *)
(** * config.py: AgentConfig and its builder                            *)
(* ================================================================== *)

Module AgentConfig.

Record t := mk {
  agent_name : value;
  company_details : CompanyDetails.t;
  agent_personality : AgentPersonality.t;
  call_context : CallContext.t;
  user_context : UserContext.t;
  industry : value;
  custom_instructions : value;
  language : value;
  timezone : value;
  compliance_requirements : value
}.

Definition __init__ (agent_name : value)
    (company_details : CompanyDetails.t)
    (agent_personality : AgentPersonality.t)
    (call_context : CallContext.t)
    (user_context : UserContext.t)
    (industry custom_instructions language timezone
     compliance_requirements : option value) : t :=
  {| agent_name := agent_name;
     company_details := company_details;
     agent_personality := agent_personality;
     call_context := call_context;
     user_context := user_context;
     industry := kwarg industry (VStr "real estate");
     custom_instructions := kwarg custom_instructions VNone;
     language := kwarg language (VStr "en");
     timezone := kwarg timezone VNone;
     compliance_requirements :=
       or_ (kwarg compliance_requirements VNone) (VList []) |}.

Definition to_dict (self : t) : dict :=
  [ ("agent_name", agent_name self);
    ("company_details", VDict (CompanyDetails.to_dict (company_details self)));
    ("agent_personality",
       VDict (AgentPersonality.to_dict (agent_personality self)));
    ("call_context", VDict (CallContext.to_dict (call_context self)));
    ("user_context", VDict (UserContext.to_dict (user_context self)));
    ("industry", industry self);
    ("custom_instructions", custom_instructions self);
    ("language", language self);
    ("timezone", timezone self);
    ("compliance_requirements", compliance_requirements self) ].

Definition from_dict (data : value) : result t :=
  agent_name ← obj_get data "agent_name" (VStr "Professional Assistant");
  cd ← obj_get data "company_details" (VDict []);
  company_details ← CompanyDetails.from_dict cd;
  ap ← obj_get data "agent_personality" (VDict []);
  agent_personality ← AgentPersonality.from_dict ap;
  cc ← obj_get data "call_context" (VDict []);
  call_context ← CallContext.from_dict cc;
  uc ← obj_get data "user_context" (VDict []);
  user_context ← UserContext.from_dict uc;
  industry ← obj_get data "industry" (VStr "real estate");
  custom_instructions ← obj_get data "custom_instructions" VNone;
  language ← obj_get data "language" (VStr "en");
  timezone ← obj_get data "timezone" VNone;
  compliance_requirements ← obj_get data "compliance_requirements" VNone;
  Ok (__init__ agent_name company_details agent_personality call_context
        user_context (Some industry) (Some custom_instructions)
        (Some language) (Some timezone) (Some compliance_requirements)).

Definition from_legacy_metadata (metadata : value) : result t :=
  agent_config ← obj_get metadata "agent_config" (VDict []);
  company_details ← obj_get agent_config "company_details" (VDict []);
  agent_personality ← obj_get agent_config "agent_personality" (VDict []);
  user_details ← obj_get metadata "user_details" (VDict []);
  agent_name ← obj_get agent_config "agent_name" (VStr "Professional Assistant");
  company_name ← obj_get agent_config "company_name" (VStr "Our Company");
  description ← obj_get company_details "description" VNone;
  specialties ← obj_get company_details "specialties" VNone;
  location ← obj_get company_details "location" VNone;
  years_in_business ← obj_get company_details "years_in_business" VNone;
  traits ← obj_get agent_personality "traits"
             (VList [VStr "professional"; VStr "friendly"; VStr "consultative"]);
  communication_style ← obj_get agent_personality "communication_style"
                          (VStr "warm and professional");
  purpose ← obj_get metadata "call_purpose" (VStr "general inquiry");
  name ← obj_get user_details "name" VNone;
  email ← obj_get user_details "email" VNone;
  phone ← obj_get user_details "phone" VNone;
  preferences ← obj_get user_details "preferences" VNone;
  previous_interactions ← obj_get user_details "previous_interactions" VNone;
  notes ← obj_get user_details "notes" VNone;
  industry ← obj_get agent_config "industry" (VStr "real estate");
  custom_instructions ← obj_get agent_config "custom_instructions" VNone;
  Ok (__init__ agent_name
        (CompanyDetails.__init__ company_name (Some description)
           (Some specialties) (Some location) (Some years_in_business)
           None None None None None)
        (AgentPersonality.__init__ traits communication_style None None None)
        (CallContext.__init__ purpose None None None None None None)
        (UserContext.__init__ (Some name) (Some email) (Some phone)
           (Some preferences) (Some previous_interactions) (Some notes)
           None None None None None)
        (Some industry) (Some custom_instructions) None None None).

End AgentConfig.

(** The builder is an object that its methods mutate and return; the
    objects live in a store and are named by references. *)
Module AgentConfigBuilder.

Record t := mk { _config : dict }.

Abbreviation ref := nat.
Abbreviation store := (gmap ref t).

(** [AgentConfigBuilder()] *)
Definition __init__ (σ : store) : ref * store :=
  let r := fresh (dom σ) in (r, <[r := {| _config := [] |}]> σ).

(** [self._config[k] = v; return self] *)
Definition set_and_return (self : ref) (k : string) (v : value) (σ : store)
    : option (ref * store) :=
  b ← σ !! self;
  Some (self, <[self := {| _config := setitem (_config b) k v |}]> σ).

Definition with_agent_name (self : ref) (name : value) :=
  set_and_return self "agent_name" name.

Definition with_company (self : ref) (company_details : CompanyDetails.t) :=
  set_and_return self "company_details"
    (VDict (CompanyDetails.to_dict company_details)).

Definition with_personality (self : ref) (personality : AgentPersonality.t) :=
  set_and_return self "agent_personality"
    (VDict (AgentPersonality.to_dict personality)).

Definition with_call_context (self : ref) (call_context : CallContext.t) :=
  set_and_return self "call_context" (VDict (CallContext.to_dict call_context)).

Definition with_user_context (self : ref) (user_context : UserContext.t) :=
  set_and_return self "user_context" (VDict (UserContext.to_dict user_context)).

Definition with_industry (self : ref) (industry : value) :=
  set_and_return self "industry" industry.

Definition with_custom_instructions (self : ref) (instructions : value) :=
  set_and_return self "custom_instructions" instructions.

Definition with_language (self : ref) (language : value) :=
  set_and_return self "language" language.

Definition with_timezone (self : ref) (timezone : value) :=
  set_and_return self "timezone" timezone.

Definition with_compliance_requirements (self : ref) (requirements : value) :=
  set_and_return self "compliance_requirements" requirements.

Definition build (self : ref) (σ : store) : option (result AgentConfig.t) :=
  b ← σ !! self;
  Some (AgentConfig.from_dict (VDict (_config b))).

End AgentConfigBuilder.

(* ================================================================== *)
(** * prompt.py: PromptBuilder                                          *)
(* ================================================================== *)

Module PromptBuilder.

(** [info_parts.append(line)] *)
Definition append (info_parts : list string) (line : string) : list string :=
  (info_parts ++ [line])%list.

(** ["\n".join(info_parts) if info_parts else ""] *)
Definition join_parts (info_parts : list string) : string :=
  match info_parts with
  | [] => ""
  | _ => String.concat nl info_parts
  end.

Definition knowledge_map : list (string * string) :=
  [ ("real estate", "
                Industry Knowledge:
                - Knowledgeable about the local real estate market
                - Understand property values, market trends, and neighborhood insights
                - Familiar with buying/selling processes, financing options, and legal requirements
                - Can provide market analysis and property recommendations
                ");
    ("insurance", "
                Industry Knowledge:
                - Knowledgeable about various insurance products and coverage options
                - Understand risk assessment and policy customization
                - Familiar with claims processes and customer protection
                - Can provide quotes and explain coverage benefits
                ");
    ("financial services", "
                Industry Knowledge:
                - Knowledgeable about financial products and investment options
                - Understand market conditions and financial planning
                - Familiar with regulatory requirements and compliance
                - Can provide financial advice and product recommendations
                ");
    ("healthcare", "
                Industry Knowledge:
                - Knowledgeable about healthcare services and treatment options
                - Understand patient care and medical procedures
                - Familiar with insurance coverage and billing processes
                - Can provide information about appointments and services
                ");
    ("default", "
                Industry Knowledge:
                - Knowledgeable about your industry and market
                - Professional and consultative in your approach
                - Focused on understanding client needs and providing value
                ") ].

Fixpoint table_lookup (m : list (string * string)) (k : string) : option string :=
  match m with
  | [] => None
  | (k', v) :: rest => if k' =? k then Some v else table_lookup rest k
  end.

(** [knowledge_map["default"]] *)
Definition knowledge_default : string :=
  match table_lookup knowledge_map "default" with Some b => b | None => "" end.

(** [knowledge_map.get(industry, knowledge_map["default"])]: a key that is
    a list or a dict cannot be hashed; any other key that is not a str is
    simply not in the table. *)
Definition _get_industry_knowledge (industry : value) : result string :=
  match industry with
  | VStr s =>
      Ok (match table_lookup knowledge_map s with
          | Some b => b
          | None => knowledge_default
          end)
  | VList _ | VDict _ => Raise TypeError
  | VNone | VBool _ | VInt _ => Ok knowledge_default
  end.

Section Rendering.

(** Python's [repr] of a list or dict, and [json.dumps]. *)
Variable repr_container : value -> string.
Variable json_dumps : value -> string.

Local Abbreviation str := (Py.str repr_container).

(** The body of [_format_company_info] up to its [return]: the lines
    collected in [info_parts].  An entity object is always truthy, so the
    guard [if not company_details] never fires on one. *)
Definition company_info_parts (company_details : CompanyDetails.t)
    : result (list string) :=
  let info_parts := [] in
  let info_parts :=
    if truthy (CompanyDetails.description company_details)
    then append info_parts
           ("Company Description: " ++ str (CompanyDetails.description company_details))
    else info_parts in
  info_parts ←
    (if truthy (CompanyDetails.specialties company_details)
     then specialties_str ← join ", " (CompanyDetails.specialties company_details);
          Ok (append info_parts ("Company Specialties: " ++ specialties_str))
     else Ok info_parts);
  let info_parts :=
    if truthy (CompanyDetails.location company_details)
    then append info_parts
           ("Service Area: " ++ str (CompanyDetails.location company_details))
    else info_parts in
  let info_parts :=
    if truthy (CompanyDetails.years_in_business company_details)
    then append info_parts
           ("Experience: " ++ str (CompanyDetails.years_in_business company_details)
            ++ " years in business")
    else info_parts in
  let info_parts :=
    if truthy (CompanyDetails.mission_statement company_details)
    then append info_parts
           ("Mission: " ++ str (CompanyDetails.mission_statement company_details))
    else info_parts in
  info_parts ←
    (if truthy (CompanyDetails.values company_details)
     then values_str ← join ", " (CompanyDetails.values company_details);
          Ok (append info_parts ("Company Values: " ++ values_str))
     else Ok info_parts);
  Ok info_parts.

Definition _format_company_info (company_details : CompanyDetails.t)
    : result string :=
  info_parts ← company_info_parts company_details;
  Ok (join_parts info_parts).

(** The body of [_format_user_info] up to its [return]; here too the guard
    [if not user_context] never fires on an entity object. *)
Definition user_info_parts (user_context : UserContext.t)
    : result (list string) :=
  let info_parts := [] in
  let info_parts :=
    if truthy (UserContext.name user_context)
    then append info_parts ("Client Name: " ++ str (UserContext.name user_context))
    else info_parts in
  let info_parts :=
    if truthy (UserContext.email user_context)
    then append info_parts ("Client Email: " ++ str (UserContext.email user_context))
    else info_parts in
  let info_parts :=
    if truthy (UserContext.phone user_context)
    then append info_parts ("Client Phone: " ++ str (UserContext.phone user_context))
    else info_parts in
  let info_parts :=
    if truthy (UserContext.preferences user_context)
    then append info_parts
           ("Client Preferences: " ++ json_dumps (UserContext.preferences user_context))
    else info_parts in
  let info_parts :=
    if truthy (UserContext.previous_interactions user_context)
    then append info_parts
           ("Previous Interactions: "
            ++ json_dumps (UserContext.previous_interactions user_context))
    else info_parts in
  let info_parts :=
    if truthy (UserContext.notes user_context)
    then append info_parts ("Additional Notes: " ++ str (UserContext.notes user_context))
    else info_parts in
  info_parts ←
    (if truthy (UserContext.goals user_context)
     then goals_str ← join ", " (UserContext.goals user_context);
          Ok (append info_parts ("Client Goals: " ++ goals_str))
     else Ok info_parts);
  let info_parts :=
    if truthy (UserContext.budget user_context)
    then append info_parts ("Budget: " ++ str (UserContext.budget user_context))
    else info_parts in
  let info_parts :=
    if truthy (UserContext.timeline user_context)
    then append info_parts ("Timeline: " ++ str (UserContext.timeline user_context))
    else info_parts in
  Ok info_parts.

Definition _format_user_info (user_context : UserContext.t) : result string :=
  info_parts ← user_info_parts user_context;
  Ok (join_parts info_parts).

Definition build_prompt (config : AgentConfig.t) : result string :=
  let personality_traits :=
    AgentPersonality.traits (AgentConfig.agent_personality config) in
  personality_str ←
    (if truthy personality_traits
     then join ", " personality_traits
     else Ok "professional, friendly, and consultative");
  let communication_style :=
    AgentPersonality.communication_style (AgentConfig.agent_personality config) in
  company_info ← _format_company_info (AgentConfig.company_details config);
  user_info ← _format_user_info (AgentConfig.user_context config);
  industry_knowledge ← _get_industry_knowledge (AgentConfig.industry config);
  let custom_instructions :=
    or_ (AgentConfig.custom_instructions config) (VStr "") in
  let prompt :=
    strip (String.concat ""
      [ "
            You are ";
       str (AgentConfig.agent_name config);
       ", a ";
       personality_str;
       " ";
       str (AgentConfig.industry config);
       " professional representing ";
       str (CompanyDetails.name (AgentConfig.company_details config));
       ". Your interface with the user is by Telephony (voice call).

            ";
       company_info;
       "

            ";
       user_info;
       "

            Call Purpose: ";
       str (CallContext.purpose (AgentConfig.call_context config));
       "

            Personality & Communication Style:
            - You are ";
       str communication_style;
       "
            - ";
       replace "," " and" personality_str;
       " in your approach
            - Focused on understanding the client's needs and providing value
            - Respectful of their time and preferences

            ";
       industry_knowledge;
       "

            Your goal is to engage with the client about their ";
       str (AgentConfig.industry config);
       " needs and provide helpful information or schedule follow-up activities as appropriate.
            Always be polite and professional. Allow the user to end the conversation when they're ready.

            Available Tools (use when appropriate):
            - end_call: **MOST IMPORTANT** - Call this when the user wants to end the call, says goodbye, or conversation is complete. ALWAYS call this to properly end calls.
            - transfer_call: Transfer to a human agent after confirming with user, then call end_call.
            - schedule_property_viewing: Schedule a property viewing when user requests it (needs: property_address, preferred_date, preferred_time).
            - schedule_consultation: Schedule a consultation meeting when user wants to meet (needs: consultation_type, date, time).
            - send_email: Send email to user when requested or for follow-up materials (needs: email_to, subject, body).
            - get_property_info: Get property details when user asks about a specific property (needs: property_address).
            - send_property_listings: Send property listings matching user's search criteria (needs: criteria).
            - detected_answering_machine: Call when you detect voicemail AFTER hearing the greeting.

            ";
       str custom_instructions;
       "
        " ]) in
  Ok prompt.

End Rendering.

End PromptBuilder.

(* ================================================================== *)
(** * Vocabulary of the properties                                      *)
(* ================================================================== *)

(** ** Objects obtained by direct construction *)

Inductive built_company : CompanyDetails.t -> Prop :=
| Built_company name description specialties location years_in_business
    website phone email mission_statement values :
    built_company
      (CompanyDetails.__init__ name description specialties location
         years_in_business website phone email mission_statement values).

Inductive built_personality : AgentPersonality.t -> Prop :=
| Built_personality traits communication_style tone expertise_level
    response_speed :
    built_personality
      (AgentPersonality.__init__ traits communication_style tone
         expertise_level response_speed).

Inductive built_call : CallContext.t -> Prop :=
| Built_call purpose priority expected_duration follow_up_required
    success_metrics call_script key_points :
    built_call
      (CallContext.__init__ purpose priority expected_duration
         follow_up_required success_metrics call_script key_points).

Inductive built_user : UserContext.t -> Prop :=
| Built_user name email phone preferences previous_interactions notes
    demographics pain_points goals budget timeline :
    built_user
      (UserContext.__init__ name email phone preferences
         previous_interactions notes demographics pain_points goals budget
         timeline).

Inductive built_config : AgentConfig.t -> Prop :=
| Built_config agent_name cd ap cc uc industry custom_instructions language
    timezone compliance_requirements :
    built_company cd -> built_personality ap -> built_call cc ->
    built_user uc ->
    built_config
      (AgentConfig.__init__ agent_name cd ap cc uc industry
         custom_instructions language timezone compliance_requirements).

(** ** None bound to a key against the key being absent *)

(** [from_dict] gives field [field] the value [dflt] both when the
    mapping binds [key] to None and when it does not bind [key]. *)
Definition none_as_missing {T : Type} (from_dict : value -> result T)
    (field : T -> value) (key : string) (dflt : value) : Prop :=
  forall d : dict,
    lookup d key = Some VNone \/ lookup d key = None ->
    exists e, from_dict (VDict d) = Ok e /\ field e = dflt.

(** ** The shape of legacy metadata *)

Definition absent_or_dict (d : dict) (k : string) : bool :=
  match lookup d k with
  | None | Some (VDict _) => true
  | Some _ => false
  end.

(** Every nested mapping that [from_legacy_metadata] reads is, when
    present, a mapping. *)
Definition legacy_shaped (metadata : dict) : bool :=
  match lookup metadata "agent_config" with
  | None => true
  | Some (VDict agent_config) =>
      absent_or_dict agent_config "company_details"
      && absent_or_dict agent_config "agent_personality"
  | Some _ => false
  end
  && absent_or_dict metadata "user_details".

(** The fields that the legacy shape cannot carry, at their defaults. *)
Definition legacy_pinned (c : AgentConfig.t) : Prop :=
  CallContext.priority (AgentConfig.call_context c) = VStr "normal" /\
  CallContext.follow_up_required (AgentConfig.call_context c) = VBool false /\
  CallContext.success_metrics (AgentConfig.call_context c) = VList [] /\
  CallContext.key_points (AgentConfig.call_context c) = VList [] /\
  AgentConfig.language c = VStr "en" /\
  AgentConfig.timezone c = VNone /\
  AgentConfig.compliance_requirements c = VList [] /\
  UserContext.demographics (AgentConfig.user_context c) = VDict [] /\
  UserContext.pain_points (AgentConfig.user_context c) = VList [] /\
  UserContext.goals (AgentConfig.user_context c) = VList [] /\
  UserContext.budget (AgentConfig.user_context c) = VNone /\
  UserContext.timeline (AgentConfig.user_context c) = VNone.

(** The configuration with every field at its documented default. *)
Definition default_config : AgentConfig.t :=
  {| AgentConfig.agent_name := VStr "Professional Assistant";
     AgentConfig.company_details :=
       {| CompanyDetails.name := VStr "";
          CompanyDetails.description := VNone;
          CompanyDetails.specialties := VList [];
          CompanyDetails.location := VNone;
          CompanyDetails.years_in_business := VNone;
          CompanyDetails.website := VNone;
          CompanyDetails.phone := VNone;
          CompanyDetails.email := VNone;
          CompanyDetails.mission_statement := VNone;
          CompanyDetails.values := VList [] |};
     AgentConfig.agent_personality :=
       {| AgentPersonality.traits := VList [];
          AgentPersonality.communication_style := VStr "professional";
          AgentPersonality.tone := VStr "professional";
          AgentPersonality.expertise_level := VStr "expert";
          AgentPersonality.response_speed := VStr "conversational" |};
     AgentConfig.call_context :=
       {| CallContext.purpose := VStr "";
          CallContext.priority := VStr "normal";
          CallContext.expected_duration := VNone;
          CallContext.follow_up_required := VBool false;
          CallContext.success_metrics := VList [];
          CallContext.call_script := VNone;
          CallContext.key_points := VList [] |};
     AgentConfig.user_context :=
       {| UserContext.name := VNone;
          UserContext.email := VNone;
          UserContext.phone := VNone;
          UserContext.preferences := VDict [];
          UserContext.previous_interactions := VList [];
          UserContext.notes := VNone;
          UserContext.demographics := VDict [];
          UserContext.pain_points := VList [];
          UserContext.goals := VList [];
          UserContext.budget := VNone;
          UserContext.timeline := VNone |};
     AgentConfig.industry := VStr "real estate";
     AgentConfig.custom_instructions := VNone;
     AgentConfig.language := VStr "en";
     AgentConfig.timezone := VNone;
     AgentConfig.compliance_requirements := VList [] |}.

(** The configuration of the end-to-end scenario, with or without a budget
    for the client. *)
Definition scenario_with_budget (budget : option value) : AgentConfig.t :=
  AgentConfig.__init__ (VStr "Ana")
    (CompanyDetails.__init__ (VStr "Acme") None
       (Some (VList [VStr "a"; VStr "b"])) None None None None None None None)
    (AgentPersonality.__init__ (VList [VStr "x"; VStr "y"]) (VStr "calm")
       None None None)
    (CallContext.__init__ (VStr "intro call") None None None None None None)
    (UserContext.__init__ (Some (VStr "Bob")) None None None None None None
       None None budget None)
    (Some (VStr "insurance")) None None None None.

Definition scenario_config : AgentConfig.t := scenario_with_budget None.

(** ** Substrings, their order, and lines *)

(** [sub] occurs in [s] at offset [p]. *)
Definition occurs_at (sub s : string) (p : nat) : bool :=
  String.prefix sub (drop p s).

(** The substrings occur in [s] at increasing offsets, the first of them
    at [from] or later. *)
Fixpoint in_order_from (from : nat) (subs : list string) (s : string) : Prop :=
  match subs with
  | [] => True
  | sub :: rest =>
      exists p, from <= p <= String.length s /\
                occurs_at sub s p = true /\
                in_order_from (S p) rest s
  end.

Definition contains_in_order (subs : list string) (s : string) : Prop :=
  in_order_from 0 subs s.

(** The leftmost occurrence at [from] or later, and the search that takes
    the leftmost occurrence of each substring in turn. *)
Definition first_occurrence (from : nat) (sub s : string) : option nat :=
  find (occurs_at sub s) (seq from (S (String.length s) - from)).

Fixpoint in_order_b (from : nat) (subs : list string) (s : string) : bool :=
  match subs with
  | [] => true
  | sub :: rest =>
      match first_occurrence from sub s with
      | Some p => in_order_b (S p) rest s
      | None => false
      end
  end.

Definition contains (sub s : string) : bool :=
  existsb (occurs_at sub s) (seq 0 (S (String.length s))).

(** [s.split("\n")] *)
Fixpoint lines (s : string) : list string :=
  match s with
  | EmptyString => [""]
  | String c rest =>
      if Ascii.eqb c "010" then "" :: lines rest
      else match lines rest with
           | l :: ls => String c l :: ls
           | [] => [String c ""]
           end
  end.




Definition insurance_paragraph : string := "
                Industry Knowledge:
                - Knowledgeable about various insurance products and coverage options
                - Understand risk assessment and policy customization
                - Familiar with claims processes and customer protection
                - Can provide quotes and explain coverage benefits
                ".

Definition default_paragraph : string := "
                Industry Knowledge:
                - Knowledgeable about your industry and market
                - Professional and consultative in your approach
                - Focused on understanding client needs and providing value
                ".

Section RenderingVocabulary.

Variable repr_container : value -> string.

Local Abbreviation str := (Py.str repr_container).


End RenderingVocabulary.


(** The claim that the legacy adapter never raises once [agent_config]
    or [user_details] is absent, whatever else the metadata binds. *)
Definition legacy_never_raises_on_absence : Prop :=
  forall metadata : dict,
    lookup metadata "agent_config" = None \/
    lookup metadata "user_details" = None ->
    is_ok (AgentConfig.from_legacy_metadata (VDict metadata)) = true.

Section ClaimsOnRendering.

Variable repr_container : value -> string.
Variable json_dumps : value -> string.

Local Abbreviation str := (Py.str repr_container).


(** The scenario prompt contains the given substrings in the given order. *)
Definition scenario_prompt_in_order (subs : list string) : Prop :=
  exists prompt,
    PromptBuilder.build_prompt repr_container json_dumps scenario_config
    = Ok prompt /\
    contains_in_order subs prompt.


End ClaimsOnRendering.

(* ================================================================== *)
(** * config.py: the template libraries                                 *)
(* ================================================================== *)

Module PersonalityTemplates.

Definition professional_consultant : AgentPersonality.t :=
  AgentPersonality.__init__
    (VList [VStr "professional"; VStr "knowledgeable"; VStr "analytical";
            VStr "patient"])
    (VStr "clear, consultative, and thorough")
    (Some (VStr "professional")) (Some (VStr "expert"))
    (Some (VStr "deliberate")).




End PersonalityTemplates.

Module CompanyTemplates.



Definition financial_services : CompanyDetails.t :=
  CompanyDetails.__init__ (VStr "WealthMax Financial")
    (Some (VStr "Personalized financial planning and investment management"))
    (Some (VList [VStr "retirement planning"; VStr "investment management";
                  VStr "tax planning"; VStr "estate planning"]))
    (Some (VStr "New York"))
    (Some (VInt 12))
    None None None
    (Some (VStr "Building wealth for a secure future"))
    (Some (VList [VStr "integrity"; VStr "excellence"; VStr "client success"])).

End CompanyTemplates.

(* ================================================================== *)
(** * prompt.py: the module-level adapter                               *)
(* ================================================================== *)


(** * src/agent.py: the structured output stream *)

Module StructuredOutput.

Section Stream.

(** The generator measures and slices the response by position, so a
    [str] is here the sequence of its code points. *)
Context {char : Type}.

Local Abbreviation text := (list char).

(** What [from_json] returns on a prefix of the model's JSON answer: each
    key may still be missing. *)
Record ResponseEmotion : Type := mk {
  voice_instructions : option text;
  response : option text
}.

(** pydantic_core's [from_json(acc_text, allow_partial=...)]; [None] when
    it raises ValueError. *)
Variable from_json : text -> option ResponseEmotion.

(** What the generator does, in order: a call of the callback, or a
    yielded delta. *)
Inductive event : Type :=
  | Callback (resp : ResponseEmotion)
  | Yield (new_delta : text).

Record state : Type := mk_state {
  last_response : text;
  acc_text : text
}.

Definition initial : state := mk_state [] [].

(** One turn of [async for chunk in text]; [callback] tells whether a
    callback was given. *)
Definition step (callback : bool) (st : state) (chunk : text)
  : state * list event :=
  let acc_text := (acc_text st ++ chunk)%list in
  match from_json acc_text with
  | None => (mk_state (last_response st) acc_text, [])
  | Some resp =>
      let called := if callback then [Callback resp] else [] in
      match response resp with
      | Some (c :: r) =>
          let new_delta := skipn (List.length (last_response st)) (c :: r) in
          (mk_state (c :: r) acc_text,
           (called ++ match new_delta with
                      | [] => []
                      | _ :: _ => [Yield new_delta]
                      end)%list)
      | _ => (mk_state (last_response st) acc_text, called)
      end
  end.

Fixpoint run (callback : bool) (st : state) (chunks : list text)
  : state * list event :=
  match chunks with
  | [] => (st, [])
  | chunk :: rest =>
      let (st', now) := step callback st chunk in
      let (st'', later) := run callback st' rest in
      (st'', (now ++ later)%list)
  end.

Definition process_structured_output (chunks : list text) (callback : bool)
  : list event :=
  snd (run callback initial chunks).

End Stream.

End StructuredOutput.

(** * src/config/config.py: Environment *)

Module Environment.

Inductive t : Type := LOCAL | DEVELOPMENT | PRODUCTION.

Definition name (e : t) : string :=
  match e with
  | LOCAL => "LOCAL"
  | DEVELOPMENT => "DEVELOPMENT"
  | PRODUCTION => "PRODUCTION"
  end.

Definition value (e : t) : string :=
  match e with
  | LOCAL => "local"
  | DEVELOPMENT => "development"
  | PRODUCTION => "production"
  end.

Definition members : list t := [LOCAL; DEVELOPMENT; PRODUCTION].

Definition eqb (a b : t) : bool := String.eqb (name a) (name b).

Definition is_local (self : t) : bool :=
  existsb (eqb self) [LOCAL; DEVELOPMENT].

(** [cls[key]]: the member of that name, or KeyError. *)
Definition getitem (key : string) : option t :=
  find (fun e => String.eqb (name e) key) members.

Inductive error : Type := ValueError (message : string).

Section FromString.

(** [str.upper]. *)
Variable upper : string -> string.

Definition from_string (env_str : string) : t + error :=
  match getitem (upper env_str) with
  | Some e => inl e
  | None => inr (ValueError ("Unknown environment: " ++ env_str))
  end.

End FromString.

End Environment.

(** ** Vocabulary of the further properties *)

(** A field defaulted by [x or d] holds a truthy value or exactly [d]. *)
Definition defaulted (v dflt : value) : Prop :=
  truthy v = true \/ v = dflt.

(** The nested mappings that [AgentConfig.from_dict] hands to the
    entities are, when present, mappings. *)
Definition canonical_shaped (data : dict) : bool :=
  absent_or_dict data "company_details"
  && absent_or_dict data "agent_personality"
  && absent_or_dict data "call_context"
  && absent_or_dict data "user_context".

(** The keys that [AgentConfig.from_dict] reads. *)
Definition config_keys : list string :=
  [ "agent_name"; "company_details"; "agent_personality"; "call_context";
    "user_context"; "industry"; "custom_instructions"; "language";
    "timezone"; "compliance_requirements" ].

(** Two dicts with the same bindings, whatever the insertion order. *)
Definition same_bindings (d1 d2 : dict) : Prop :=
  forall k, lookup d1 k = lookup d2 k.


(** A value that can be a dict key. *)
Definition hashable (v : value) : bool :=
  match v with
  | VList _ | VDict _ => false
  | _ => true
  end.

(** The keys that each entity's [from_dict] reads. *)
Definition personality_keys : list string :=
  [ "traits"; "communication_style"; "tone"; "expertise_level";
    "response_speed" ].

Definition company_keys : list string :=
  [ "name"; "description"; "specialties"; "location"; "years_in_business";
    "website"; "phone"; "email"; "mission_statement"; "values" ].

Definition user_keys : list string :=
  [ "name"; "email"; "phone"; "preferences"; "previous_interactions";
    "notes"; "demographics"; "pain_points"; "goals"; "budget"; "timeline" ].

Definition call_keys : list string :=
  [ "purpose"; "priority"; "expected_duration"; "follow_up_required";
    "success_metrics"; "call_script"; "key_points" ].

(** Two dicts that bind the keys of [keys] alike. *)
Definition agree_on (keys : list string) (d1 d2 : dict) : Prop :=
  forall k, In k keys -> lookup d1 k = lookup d2 k.

(** A builder call followed by [build()] on the builder it returns. *)
Definition then_build
    (step : AgentConfigBuilder.store ->
            option (AgentConfigBuilder.ref * AgentConfigBuilder.store))
    (σ : AgentConfigBuilder.store) : option (result AgentConfig.t) :=
  '(r, σ') ← step σ; AgentConfigBuilder.build r σ'.

(** The fields of a company, a personality and a call that the legacy
    shape cannot carry, at their defaults. *)
Definition legacy_dropped (c : AgentConfig.t) : Prop :=
  CompanyDetails.website (AgentConfig.company_details c) = VNone /\
  CompanyDetails.phone (AgentConfig.company_details c) = VNone /\
  CompanyDetails.email (AgentConfig.company_details c) = VNone /\
  CompanyDetails.mission_statement (AgentConfig.company_details c) = VNone /\
  CompanyDetails.values (AgentConfig.company_details c) = VList [] /\
  AgentPersonality.tone (AgentConfig.agent_personality c)
  = VStr "professional" /\
  AgentPersonality.expertise_level (AgentConfig.agent_personality c)
  = VStr "expert" /\
  AgentPersonality.response_speed (AgentConfig.agent_personality c)
  = VStr "conversational" /\
  CallContext.expected_duration (AgentConfig.call_context c) = VNone /\
  CallContext.call_script (AgentConfig.call_context c) = VNone.

(** ** Bytes that [strip()] never removes *)

(** The byte [c] occurs in [w]. *)
Definition mem (c : ascii) (w : string) : bool :=
  existsb (Ascii.eqb c) (list_ascii_of_string w).

(** A byte that occurs in no whitespace code point, such as any ASCII
    letter, digit or punctuation mark. *)
Definition is_blocker (c : ascii) : bool :=
  forallb (fun w => negb (mem c w)) whitespace.

Definition has_blocker (s : string) : bool :=
  existsb is_blocker (list_ascii_of_string s).

(** [s] split after its last such byte, if it has one. *)
Fixpoint split_last (s : string) : option (string * string) :=
  match s with
  | EmptyString => None
  | String c r =>
      match split_last r with
      | Some (k, t) => Some (String c k, t)
      | None => if is_blocker c then Some (String c EmptyString, r) else None
      end
  end.

Definition keep (s : string) : string :=
  match split_last s with Some (k, _) => k | None => EmptyString end.

Definition trail (s : string) : string :=
  match split_last s with Some (_, t) => t | None => s end.

(** [s] ends with [e]. *)
Definition ends_with (e s : string) : Prop :=
  exists body, s = body ++ e.


(** The texts the generator yielded, joined. *)
Definition yielded {char : Type}
    (events : list (@StructuredOutput.event char)) : list char :=
  flat_map (fun e => match e with
                     | StructuredOutput.Yield d => d
                     | StructuredOutput.Callback _ => []
                     end) events.

(** The non-empty responses parsed after each chunk, in order. *)
Fixpoint responses {char : Type}
    (from_json : list char -> option (@StructuredOutput.ResponseEmotion char))
    (acc_text : list char) (chunks : list (list char)) : list (list char) :=
  match chunks with
  | [] => []
  | chunk :: rest =>
      let acc_text := (acc_text ++ chunk)%list in
      match from_json acc_text with
      | Some (StructuredOutput.mk _ (Some (c :: r))) =>
          (c :: r) :: responses from_json acc_text rest
      | _ => responses from_json acc_text rest
      end
  end.

(** Each response is the one before it with more text at its end. *)
Fixpoint growing {char : Type} (previous : list char)
    (rs : list (list char)) : Prop :=
  match rs with
  | [] => True
  | r :: rest => (exists d, r = (previous ++ d)%list) /\ growing r rest
  end.



(** ASCII text and its upper case, where [str.upper] is known. *)
Definition is_ascii (s : string) : bool :=
  forallb (fun c => Nat.ltb (nat_of_ascii c) 128) (list_ascii_of_string s).

Definition upper_byte (c : ascii) : ascii :=
  let n := nat_of_ascii c in
  if Nat.leb 97 n && Nat.leb n 122 then ascii_of_nat (n - 32) else c.

Fixpoint ascii_upper (s : string) : string :=
  match s with
  | EmptyString => EmptyString
  | String c rest => String (upper_byte c) (ascii_upper rest)
  end.

(* ================================================================== *)
(** * The model at work                                                 *)
(* ================================================================== *)

Example truthy_zero : truthy (VInt 0) = false /\ truthy (VInt 15) = true.
Proof. split; reflexivity. Qed.

Example or_keeps_truthy :
  or_ (VStr "friendly") (VStr "professional") = VStr "friendly" /\
  or_ (VStr "") (VStr "professional") = VStr "professional".
Proof. split; reflexivity. Qed.

Example setitem_overwrites_in_place :
  setitem [("a", VInt 1); ("b", VInt 2)] "a" (VInt 3)
  = [("a", VInt 3); ("b", VInt 2)].
Proof. reflexivity. Qed.

Example join_list : join ", " (VList [VStr "a"; VStr "b"]) = Ok "a, b".
Proof. reflexivity. Qed.

Example join_str_iterates_code_points :
  join ", " (VStr ("a" ++ bytes [195; 169] ++ "b"))
  = Ok ("a, " ++ bytes [195; 169] ++ ", b").
Proof. reflexivity. Qed.

Example join_int_raises : join ", " (VList [VInt 1]) = Raise TypeError.
Proof. reflexivity. Qed.

Example strip_unicode_space :
  strip (nl ++ "  a b " ++ bytes [226; 128; 130] ++ nl) = "a b".
Proof. reflexivity. Qed.

Example replace_commas : replace "," " and" "x, y, z" = "x and y and z".
Proof. reflexivity. Qed.

Example lines_split : lines ("a" ++ nl ++ nl ++ "b") = ["a"; ""; "b"].
Proof. reflexivity. Qed.

Example from_dict_of_none_raises :
  AgentConfig.from_dict (VDict [("company_details", VNone)])
  = Raise AttributeError.
Proof. reflexivity. Qed.

Example unhashable_industry :
  PromptBuilder._get_industry_knowledge (VList []) = Raise TypeError.
Proof. reflexivity. Qed.

(* ================================================================== *)
(** * Properties of the configuration classes                           *)
(* ================================================================== *)

(** ** Dictionaries *)

Lemma lookup_setitem_eq (d : dict) k v : lookup (setitem d k v) k = Some v.
Proof.
  induction d as [|[k' v'] d IH]; simpl.
  - now rewrite String.eqb_refl.
  - destruct (k' =? k) eqn:E; simpl.
    + now rewrite String.eqb_refl.
    + now rewrite E.
Qed.

Lemma lookup_setitem_ne (d : dict) k k' v :
  (k =? k') = false -> lookup (setitem d k v) k' = lookup d k'.
Proof.
  intros Hne. induction d as [|[k0 v0] d IH]; simpl.
  - now rewrite Hne.
  - destruct (k0 =? k) eqn:E; simpl.
    + apply String.eqb_eq in E. subst k0. now rewrite Hne.
    + now rewrite IH.
Qed.

Lemma get_setitem_eq (d : dict) k v dflt : get (setitem d k v) k dflt = v.
Proof. unfold get. now rewrite lookup_setitem_eq. Qed.

Lemma get_setitem_ne (d : dict) k k' v dflt :
  (k =? k') = false -> get (setitem d k v) k' dflt = get d k' dflt.
Proof. intros. unfold get. now rewrite lookup_setitem_ne. Qed.

Lemma setitem_setitem (d : dict) k v1 v2 :
  setitem (setitem d k v1) k v2 = setitem d k v2.
Proof.
  induction d as [|[k' v'] d IH]; simpl.
  - now rewrite String.eqb_refl.
  - destruct (k' =? k) eqn:E; simpl.
    + now rewrite String.eqb_refl.
    + now rewrite E, IH.
Qed.

(** ** The defaulting operator *)

Lemma or_idem x d : or_ (or_ x d) d = or_ x d.
Proof.
  unfold or_. destruct (truthy x) eqn:E.
  - now rewrite E.
  - now destruct (truthy d).
Qed.

(** ** Round trip through the canonical mapping *)

Lemma CompanyDetails_roundtrip c :
  built_company c ->
  CompanyDetails.from_dict (VDict (CompanyDetails.to_dict c)) = Ok c.
Proof.
  intros []. cbn. unfold CompanyDetails.__init__. cbn.
  now rewrite !or_idem.
Qed.

Lemma AgentPersonality_roundtrip p :
  built_personality p ->
  AgentPersonality.from_dict (VDict (AgentPersonality.to_dict p)) = Ok p.
Proof.
  intros []. cbn. unfold AgentPersonality.__init__. cbn.
  now rewrite !or_idem.
Qed.

Lemma CallContext_roundtrip c :
  built_call c ->
  CallContext.from_dict (VDict (CallContext.to_dict c)) = Ok c.
Proof.
  intros []. cbn. unfold CallContext.__init__. cbn.
  now rewrite !or_idem.
Qed.

Lemma UserContext_roundtrip u :
  built_user u ->
  UserContext.from_dict (VDict (UserContext.to_dict u)) = Ok u.
Proof.
  intros []. cbn. unfold UserContext.__init__. cbn.
  now rewrite !or_idem.
Qed.

(** C1. For every AgentConfig built by direct construction from entity
    objects that were themselves built by their constructors,
    [AgentConfig.from_dict(c.to_dict())] returns a configuration equal
    to [c] in every field, nested entity fields included. *)
Theorem AgentConfig_roundtrip (c : AgentConfig.t) :
  built_config c ->
  AgentConfig.from_dict (VDict (AgentConfig.to_dict c)) = Ok c.
Proof.
  intros [name cd ap cc uc ind ci lang tz cr Hcd Hap Hcc Huc].
  unfold AgentConfig.from_dict, AgentConfig.to_dict.
  cbn -[CompanyDetails.from_dict CompanyDetails.to_dict
        AgentPersonality.from_dict AgentPersonality.to_dict
        CallContext.from_dict CallContext.to_dict
        UserContext.from_dict UserContext.to_dict].
  rewrite (CompanyDetails_roundtrip _ Hcd), (AgentPersonality_roundtrip _ Hap),
    (CallContext_roundtrip _ Hcc), (UserContext_roundtrip _ Huc).
  cbn. unfold AgentConfig.__init__. cbn.
  now rewrite or_idem.
Qed.

Lemma AgentConfig_roundtrip_witness :
  AgentConfig.from_dict (VDict (AgentConfig.to_dict scenario_config))
  = Ok scenario_config.
Proof. apply (AgentConfig_roundtrip scenario_config). repeat constructor. Defined.

(** C3. [AgentConfig.from_dict({})] returns the configuration with every
    field at its documented default, which is also what the constructors
    give when called with the default literals. *)
Theorem from_dict_empty_defaults :
  AgentConfig.from_dict (VDict []) = Ok default_config /\
  default_config =
    AgentConfig.__init__ (VStr "Professional Assistant")
      (CompanyDetails.__init__ (VStr "") None None None None None None None
         None None)
      (AgentPersonality.__init__ (VList []) (VStr "professional") None None
         None)
      (CallContext.__init__ (VStr "") None None None None None None)
      (UserContext.__init__ None None None None None None None None None None
         None)
      None None None None None.
Proof. split; reflexivity. Qed.

(** ** None bound to a key *)

Ltac solve_none_as_missing :=
  let d := fresh "d" in
  let H := fresh "H" in
  intros d [H | H]; eexists; (split; [reflexivity |]);
  cbn; unfold get; rewrite H; reflexivity.

(** C5, as the code has it.  In each entity's [from_dict], a key bound to
    None gives the same field value as an absent key, namely the default,
    for every field that the constructor declares optional and defaults
    with [or]: tone, expertise_level, response_speed; specialties, values;
    preferences, previous_interactions, demographics, pain_points, goals;
    priority, follow_up_required, success_metrics, key_points. *)
Theorem from_dict_none_as_missing :
  none_as_missing AgentPersonality.from_dict AgentPersonality.tone
    "tone" (VStr "professional") /\
  none_as_missing AgentPersonality.from_dict AgentPersonality.expertise_level
    "expertise_level" (VStr "expert") /\
  none_as_missing AgentPersonality.from_dict AgentPersonality.response_speed
    "response_speed" (VStr "conversational") /\
  none_as_missing CompanyDetails.from_dict CompanyDetails.specialties
    "specialties" (VList []) /\
  none_as_missing CompanyDetails.from_dict CompanyDetails.values
    "values" (VList []) /\
  none_as_missing UserContext.from_dict UserContext.preferences
    "preferences" (VDict []) /\
  none_as_missing UserContext.from_dict UserContext.previous_interactions
    "previous_interactions" (VList []) /\
  none_as_missing UserContext.from_dict UserContext.demographics
    "demographics" (VDict []) /\
  none_as_missing UserContext.from_dict UserContext.pain_points
    "pain_points" (VList []) /\
  none_as_missing UserContext.from_dict UserContext.goals
    "goals" (VList []) /\
  none_as_missing CallContext.from_dict CallContext.priority
    "priority" (VStr "normal") /\
  none_as_missing CallContext.from_dict CallContext.follow_up_required
    "follow_up_required" (VBool false) /\
  none_as_missing CallContext.from_dict CallContext.success_metrics
    "success_metrics" (VList []) /\
  none_as_missing CallContext.from_dict CallContext.key_points
    "key_points" (VList []).
Proof. repeat split; solve_none_as_missing. Qed.

Lemma from_dict_none_as_missing_witness :
  exists e, CallContext.from_dict (VDict [("priority", VNone)]) = Ok e /\
            CallContext.priority e = VStr "normal".
Proof.
  apply (proj1 (proj2 (proj2 (proj2 (proj2 (proj2 (proj2 (proj2 (proj2
          (proj2 (proj2 from_dict_none_as_missing))))))))))).
  left. reflexivity.
Defined.

(** C5 as stated fails on the required fields: [from_dict] stores a None
    bound to traits, communication_style, name or purpose as it is,
    whereas an absent key gives the default. *)
Lemma from_dict_none_as_missing_counterexample :
  ~ none_as_missing AgentPersonality.from_dict AgentPersonality.traits
      "traits" (VList []) /\
  ~ none_as_missing AgentPersonality.from_dict
      AgentPersonality.communication_style
      "communication_style" (VStr "professional") /\
  ~ none_as_missing CompanyDetails.from_dict CompanyDetails.name
      "name" (VStr "") /\
  ~ none_as_missing CallContext.from_dict CallContext.purpose
      "purpose" (VStr "").
Proof.
  repeat split; intros H.
  - destruct (H [("traits", VNone)]) as [e [He Hf]]; [now left|].
    cbn in He. injection He as <-. discriminate Hf.
  - destruct (H [("communication_style", VNone)]) as [e [He Hf]]; [now left|].
    cbn in He. injection He as <-. discriminate Hf.
  - destruct (H [("name", VNone)]) as [e [He Hf]]; [now left|].
    cbn in He. injection He as <-. discriminate Hf.
  - destruct (H [("purpose", VNone)]) as [e [He Hf]]; [now left|].
    cbn in He. injection He as <-. discriminate Hf.
Qed.

(** ** The legacy adapter *)

Lemma bind_ok_inv {A B} (m : result A) (f : A -> result B) (b : B) :
  (m ≫= f) = Ok b -> exists a, m = Ok a /\ f a = Ok b.
Proof. destruct m as [a|e]; cbn; [eauto | discriminate]. Qed.

Ltac bind_inv H :=
  repeat
    (let a := fresh "a" in
     let Ha := fresh "Ha" in
     apply bind_ok_inv in H; destruct H as [a [Ha H]]).

Ltac legacy_cases :=
  unfold AgentConfig.from_legacy_metadata, legacy_shaped, absent_or_dict;
  cbn; unfold get;
  repeat
    (match goal with
     | |- context [lookup ?d "agent_config"] =>
         destruct (lookup d "agent_config") as [[]|]
     | |- context [lookup ?d "user_details"] =>
         destruct (lookup d "user_details") as [[]|]
     | |- context [lookup ?d "company_details"] =>
         destruct (lookup d "company_details") as [[]|]
     | |- context [lookup ?d "agent_personality"] =>
         destruct (lookup d "agent_personality") as [[]|]
     end; cbn; unfold get).

(** The adapter returns exactly on metadata of the legacy shape, and
    raises AttributeError on any other. *)
Lemma legacy_ok_iff_shaped (metadata : dict) :
  is_ok (AgentConfig.from_legacy_metadata (VDict metadata))
  = legacy_shaped metadata.
Proof. legacy_cases; reflexivity. Qed.

Lemma legacy_raises_unshaped (metadata : dict) :
  legacy_shaped metadata = false ->
  AgentConfig.from_legacy_metadata (VDict metadata) = Raise AttributeError.
Proof. legacy_cases; intros H; try reflexivity; discriminate H. Qed.

Lemma legacy_result_pinned (metadata : value) (c : AgentConfig.t) :
  AgentConfig.from_legacy_metadata metadata = Ok c -> legacy_pinned c.
Proof.
  unfold AgentConfig.from_legacy_metadata. intros H.
  bind_inv H. injection H as <-.
  unfold legacy_pinned. cbn. repeat split; reflexivity.
Qed.

Lemma legacy_absent_agent_config (metadata : dict) :
  lookup metadata "agent_config" = None ->
  AgentConfig.from_legacy_metadata (VDict metadata)
  = AgentConfig.from_legacy_metadata
      (VDict (setitem metadata "agent_config" (VDict []))).
Proof.
  intros H. unfold AgentConfig.from_legacy_metadata. cbn -[get].
  rewrite get_setitem_eq, !get_setitem_ne by reflexivity.
  assert (get metadata "agent_config" (VDict []) = VDict []) as ->
    by (unfold get; now rewrite H).
  reflexivity.
Qed.

Lemma legacy_absent_user_details (metadata : dict) :
  lookup metadata "user_details" = None ->
  AgentConfig.from_legacy_metadata (VDict metadata)
  = AgentConfig.from_legacy_metadata
      (VDict (setitem metadata "user_details" (VDict []))).
Proof.
  intros H. unfold AgentConfig.from_legacy_metadata. cbn -[get].
  rewrite get_setitem_eq, !get_setitem_ne by reflexivity.
  assert (get metadata "user_details" (VDict []) = VDict []) as ->
    by (unfold get; now rewrite H).
  reflexivity.
Qed.

(** C2, as the code has it.  [from_legacy_metadata({})] returns, with
    agent_name "Professional Assistant", company name "Our Company" and
    purpose "general inquiry".  For every metadata mapping an absent
    agent_config, and an absent user_details, is treated as [{}].
    Construction returns exactly when each nested value that is present
    (agent_config, user_details, and company_details and agent_personality
    inside agent_config) is a mapping. *)
Theorem legacy_fallback :
  (exists c, AgentConfig.from_legacy_metadata (VDict []) = Ok c /\
     AgentConfig.agent_name c = VStr "Professional Assistant" /\
     CompanyDetails.name (AgentConfig.company_details c) = VStr "Our Company" /\
     CallContext.purpose (AgentConfig.call_context c) = VStr "general inquiry") /\
  (forall metadata : dict,
     lookup metadata "agent_config" = None ->
     AgentConfig.from_legacy_metadata (VDict metadata)
     = AgentConfig.from_legacy_metadata
         (VDict (setitem metadata "agent_config" (VDict [])))) /\
  (forall metadata : dict,
     lookup metadata "user_details" = None ->
     AgentConfig.from_legacy_metadata (VDict metadata)
     = AgentConfig.from_legacy_metadata
         (VDict (setitem metadata "user_details" (VDict [])))) /\
  (forall metadata : dict,
     legacy_shaped metadata = true ->
     exists c, AgentConfig.from_legacy_metadata (VDict metadata) = Ok c) /\
  (forall metadata : dict,
     legacy_shaped metadata = false ->
     AgentConfig.from_legacy_metadata (VDict metadata) = Raise AttributeError).
Proof.
  split; [|split; [|split; [|split]]].
  - eexists. split; [reflexivity|]. repeat split.
  - exact legacy_absent_agent_config.
  - exact legacy_absent_user_details.
  - intros md H. rewrite <- legacy_ok_iff_shaped in H.
    destruct (AgentConfig.from_legacy_metadata (VDict md)) as [c|e];
      [eauto | discriminate].
  - exact legacy_raises_unshaped.
Qed.

Lemma legacy_fallback_witness :
  exists c,
    AgentConfig.from_legacy_metadata
      (VDict [("call_purpose", VStr "renewal");
              ("user_details", VDict [("name", VStr "Bob")])]) = Ok c.
Proof.
  apply (proj1 (proj2 (proj2 (proj2 legacy_fallback)))). reflexivity.
Defined.

(** C2 as stated fails: with agent_config absent and user_details bound to
    None (JSON null), the adapter raises AttributeError. *)
Lemma legacy_fallback_counterexample :
  lookup [("user_details", VNone)] "agent_config" = None /\
  AgentConfig.from_legacy_metadata (VDict [("user_details", VNone)])
  = Raise AttributeError /\
  ~ legacy_never_raises_on_absence.
Proof.
  split; [reflexivity|]. split; [reflexivity|].
  intros H. specialize (H [("user_details", VNone)] (or_introl eq_refl)).
  discriminate H.
Qed.

(** C10. Whenever the legacy adapter returns a configuration, the fields
    that the legacy shape cannot carry are at their construction defaults,
    whatever keys the metadata binds; and it does return one on every
    metadata mapping of the legacy shape. *)
Theorem legacy_pins_fields :
  (forall (metadata : value) (c : AgentConfig.t),
     AgentConfig.from_legacy_metadata metadata = Ok c -> legacy_pinned c) /\
  (forall metadata : dict,
     legacy_shaped metadata = true ->
     exists c, AgentConfig.from_legacy_metadata (VDict metadata) = Ok c /\
               legacy_pinned c).
Proof.
  split.
  - exact legacy_result_pinned.
  - intros md H. rewrite <- legacy_ok_iff_shaped in H.
    destruct (AgentConfig.from_legacy_metadata (VDict md)) as [c|e] eqn:E;
      [|discriminate].
    exists c. split; [reflexivity|]. eapply legacy_result_pinned; eauto.
Qed.

Lemma legacy_pins_fields_witness :
  exists c,
    AgentConfig.from_legacy_metadata
      (VDict [("language", VStr "fr");
              ("priority", VStr "high");
              ("agent_config", VDict [("timezone", VStr "UTC");
                                      ("language", VStr "fr")]);
              ("user_details", VDict [("budget", VStr "$1M");
                                      ("goals", VList [VStr "buy"])])]) = Ok c /\
    legacy_pinned c.
Proof.
  apply (proj2 legacy_pins_fields). reflexivity.
Defined.

(** ** The builder *)

Import AgentConfigBuilder.

Lemma set_and_return_stored (σ : store) (r : ref) (b : AgentConfigBuilder.t)
    (k : string) (v : value) :
  σ !! r = Some b ->
  set_and_return r k v σ
  = Some (r, <[r := {| _config := setitem (_config b) k v |}]> σ).
Proof. intros H. unfold set_and_return. now rewrite H. Qed.

Lemma set_and_return_twice (σ : store) (r : ref) (b : AgentConfigBuilder.t)
    (k : string) (v1 v2 : value) :
  σ !! r = Some b ->
  ('(r1, σ1) ← set_and_return r k v1 σ; set_and_return r1 k v2 σ1)
  = set_and_return r k v2 σ.
Proof.
  intros H. unfold set_and_return. rewrite H. simpl.
  rewrite lookup_insert_eq. simpl.
  now rewrite insert_insert_eq, setitem_setitem.
Qed.

(** C9. For a builder [r] of the store: every [with_X] stores its
    argument under its key of [_config] (an entity as its [to_dict()], a
    scalar as it is) and returns [r] itself; [build()] returns
    [AgentConfig.from_dict] of [_config]; a second call of the same setter
    overwrites the first, so that
    [r.with_company(e1).with_company(e2).build()] equals
    [r.with_company(e2).build()], and leaves the same store. *)
Theorem builder_semantics (σ : store) (r : ref) (b : AgentConfigBuilder.t) :
  σ !! r = Some b ->
  let stored k v :=
    Some (r, <[r := {| _config := setitem (_config b) k v |}]> σ) in
  (forall v, with_agent_name r v σ = stored "agent_name" v) /\
  (forall e, with_company r e σ
             = stored "company_details" (VDict (CompanyDetails.to_dict e))) /\
  (forall e, with_personality r e σ
             = stored "agent_personality" (VDict (AgentPersonality.to_dict e))) /\
  (forall e, with_call_context r e σ
             = stored "call_context" (VDict (CallContext.to_dict e))) /\
  (forall e, with_user_context r e σ
             = stored "user_context" (VDict (UserContext.to_dict e))) /\
  (forall v, with_industry r v σ = stored "industry" v) /\
  (forall v, with_custom_instructions r v σ = stored "custom_instructions" v) /\
  (forall v, with_language r v σ = stored "language" v) /\
  (forall v, with_timezone r v σ = stored "timezone" v) /\
  (forall v, with_compliance_requirements r v σ
             = stored "compliance_requirements" v) /\
  build r σ = Some (AgentConfig.from_dict (VDict (_config b))) /\
  (forall k v1 v2,
     ('(r1, σ1) ← set_and_return r k v1 σ; set_and_return r1 k v2 σ1)
     = set_and_return r k v2 σ) /\
  (forall e1 e2,
     ('(r1, σ1) ← with_company r e1 σ;
      '(r2, σ2) ← with_company r1 e2 σ1;
      cfg ← build r2 σ2; Some (cfg, σ2))
     = ('(r2, σ2) ← with_company r e2 σ;
        cfg ← build r2 σ2; Some (cfg, σ2))).
Proof.
  intros H stored.
  repeat (split; [intros; now apply set_and_return_stored|]).
  split; [|split].
  - unfold build. now rewrite H.
  - intros. now apply (set_and_return_twice σ r b).
  - intros e1 e2. unfold with_company, build, set_and_return.
    rewrite H. simpl. rewrite !lookup_insert_eq. simpl.
    rewrite !lookup_insert_eq. simpl.
    now rewrite insert_insert_eq, setitem_setitem.
Qed.

Lemma builder_semantics_witness :
  let σ : store := <[0%nat := {| _config := [("agent_name", VStr "Ana")] |}]> ∅ in
  build 0%nat σ
  = Some (AgentConfig.from_dict (VDict [("agent_name", VStr "Ana")])).
Proof.
  intros σ.
  apply (builder_semantics σ 0%nat {| _config := [("agent_name", VStr "Ana")] |}).
  reflexivity.
Defined.

(* ================================================================== *)
(** * Properties of the prompt builder                                  *)
(* ================================================================== *)

(** ** Searching for substrings *)

Lemma find_seq_least (f : nat -> bool) (len from q : nat) :
  from <= q < from + len -> f q = true ->
  exists p, find f (seq from len) = Some p /\ from <= p <= q.
Proof.
  revert from. induction len as [|len IH]; intros from Hq Hf; [lia|].
  simpl. destruct (f from) eqn:E.
  - exists from. split; [reflexivity | lia].
  - assert (from <> q) by (intros ->; congruence).
    destruct (IH (S from)) as [p [Hp Hle]]; [lia | exact Hf |].
    exists p. split; [exact Hp | lia].
Qed.

Lemma first_occurrence_some from sub s p :
  first_occurrence from sub s = Some p ->
  from <= p <= String.length s /\ occurs_at sub s p = true.
Proof.
  unfold first_occurrence. intros H.
  apply find_some in H. destruct H as [Hin Hocc].
  apply in_seq in Hin. split; [lia | exact Hocc].
Qed.

Lemma first_occurrence_least from sub s q :
  from <= q <= String.length s -> occurs_at sub s q = true ->
  exists p, first_occurrence from sub s = Some p /\ p <= q.
Proof.
  intros Hq Hocc. unfold first_occurrence.
  destruct (find_seq_least (occurs_at sub s)
              (S (String.length s) - from) from q) as [p [Hp Hle]];
    [lia | exact Hocc |].
  exists p. split; [exact Hp | lia].
Qed.

Lemma in_order_from_mono a b subs s :
  a <= b -> in_order_from b subs s -> in_order_from a subs s.
Proof.
  destruct subs as [|sub rest]; [easy|].
  intros Hab [p [Hp [Hocc Hrest]]]. exists p. repeat split; try lia; easy.
Qed.

Lemma in_order_b_sound subs s from :
  in_order_b from subs s = true -> in_order_from from subs s.
Proof.
  revert from. induction subs as [|sub rest IH]; intros from H; [exact I|].
  simpl in H. destruct (first_occurrence from sub s) as [p|] eqn:E;
    [|discriminate].
  apply first_occurrence_some in E. destruct E as [Hp Hocc].
  exists p. repeat split; try lia; auto.
Qed.

Lemma in_order_b_complete subs s from :
  in_order_from from subs s -> in_order_b from subs s = true.
Proof.
  revert from. induction subs as [|sub rest IH]; intros from H; [reflexivity|].
  destruct H as [q [Hq [Hocc Hrest]]]. simpl.
  destruct (first_occurrence_least from sub s q Hq Hocc) as [p [-> Hle]].
  apply IH. apply (in_order_from_mono _ (S q)); [lia | exact Hrest].
Qed.

(** ** The end-to-end scenario *)

(** C4, as the code has it.  The prompt of the scenario contains
    "You are Ana", "Company Specialties: a, b", "Client Name: Bob",
    "Call Purpose: intro call" and the insurance paragraph in this order:
    the client's name comes before the call purpose. *)
Theorem scenario_prompt_order (repr_container json_dumps : value -> string) :
  scenario_prompt_in_order repr_container json_dumps
    [ "You are Ana"; "Company Specialties: a, b"; "Client Name: Bob";
      "Call Purpose: intro call"; insurance_paragraph ].
Proof.
  eexists. split; [vm_compute; reflexivity|].
  apply in_order_b_sound. vm_compute. reflexivity.
Qed.

(** C4 as stated fails: in the prompt of the scenario no occurrence of
    "Call Purpose: intro call" comes before one of "Client Name: Bob",
    whatever [repr] and [json.dumps] are. *)
Lemma scenario_prompt_order_counterexample :
  ~ exists repr_container json_dumps,
      scenario_prompt_in_order repr_container json_dumps
        [ "You are Ana"; "Company Specialties: a, b";
          "Call Purpose: intro call"; "Client Name: Bob";
          insurance_paragraph ].
Proof.
  intros [repr_container [json_dumps [prompt [Hp Ho]]]].
  vm_compute in Hp. injection Hp as <-.
  apply in_order_b_complete in Ho. vm_compute in Ho. discriminate Ho.
Qed.

(** ** Industry knowledge *)

Lemma table_lookup_cons k v m s :
  PromptBuilder.table_lookup ((k, v) :: m) s
  = if k =? s then Some v else PromptBuilder.table_lookup m s.
Proof. reflexivity. Qed.

(** C7. The knowledge block is found by exact match of the industry
    string: "insurance" gives the insurance paragraph, each of the four
    industries of the table gives its own entry, and every other string,
    such as "unknown-sector", gives the "default" paragraph. *)
Theorem industry_knowledge_selection :
  PromptBuilder._get_industry_knowledge (VStr "insurance")
    = Ok insurance_paragraph /\
  PromptBuilder._get_industry_knowledge (VStr "unknown-sector")
    = Ok default_paragraph /\
  PromptBuilder.table_lookup PromptBuilder.knowledge_map "default"
    = Some default_paragraph /\
  (forall s : string,
     In s ["real estate"; "insurance"; "financial services"; "healthcare"] ->
     exists block,
       PromptBuilder.table_lookup PromptBuilder.knowledge_map s = Some block /\
       PromptBuilder._get_industry_knowledge (VStr s) = Ok block /\
       block <> default_paragraph) /\
  (forall s : string,
     ~ In s ["real estate"; "insurance"; "financial services"; "healthcare"] ->
     PromptBuilder._get_industry_knowledge (VStr s) = Ok default_paragraph).
Proof.
  split; [reflexivity|]. split; [reflexivity|]. split; [reflexivity|]. split.
  - intros s [<- | [<- | [<- | [<- | []]]]];
      eexists; (split; [reflexivity|]); (split; [reflexivity|]);
      vm_compute; discriminate.
  - intros s Hs. unfold PromptBuilder._get_industry_knowledge.
    unfold PromptBuilder.knowledge_map. rewrite !table_lookup_cons.
    destruct (String.eqb_spec "real estate" s) as [E|_];
      [exfalso; apply Hs; subst s; simpl; tauto|].
    destruct (String.eqb_spec "insurance" s) as [E|_];
      [exfalso; apply Hs; subst s; simpl; tauto|].
    destruct (String.eqb_spec "financial services" s) as [E|_];
      [exfalso; apply Hs; subst s; simpl; tauto|].
    destruct (String.eqb_spec "healthcare" s) as [E|_];
      [exfalso; apply Hs; subst s; simpl; tauto|].
    destruct (String.eqb_spec "default" s); reflexivity.
Qed.

Lemma industry_knowledge_selection_witness :
  PromptBuilder._get_industry_knowledge (VStr "retail") = Ok default_paragraph.
Proof.
  apply (proj2 (proj2 (proj2 (proj2 industry_knowledge_selection)))).
  simpl. intros [H | [H | [H | [H | []]]]]; discriminate H.
Defined.

(** ** The company block and the user block *)



Section Blocks.

Variable repr_container : value -> string.
Variable json_dumps : value -> string.




End Blocks.

Lemma prefix_empty s : String.prefix "" s = true.
Proof. now destruct s. Qed.








(* ================================================================== *)
(** * Further properties of the configuration classes                   *)
(* ================================================================== *)

(** ** What the constructors guarantee *)

Lemma or_defaulted x d : defaulted (or_ x d) d.
Proof.
  unfold defaulted, or_. destruct (truthy x) eqn:E; [now left | now right].
Qed.

Lemma or_truthy_default x d : truthy d = true -> truthy (or_ x d) = true.
Proof. unfold or_. destruct (truthy x) eqn:E; auto. Qed.

(** X1. After construction a field that [__init__] defaults with [or] is
    never None, 0, False or empty unless that is its default: the three
    style fields of a personality and the priority of a call are always
    truthy, and every collection field (and follow_up_required) is truthy
    or exactly its default. *)
Theorem constructors_normalise :
  (forall p, built_personality p ->
     truthy (AgentPersonality.tone p) = true /\
     truthy (AgentPersonality.expertise_level p) = true /\
     truthy (AgentPersonality.response_speed p) = true) /\
  (forall c, built_company c ->
     defaulted (CompanyDetails.specialties c) (VList []) /\
     defaulted (CompanyDetails.values c) (VList [])) /\
  (forall u, built_user u ->
     defaulted (UserContext.preferences u) (VDict []) /\
     defaulted (UserContext.previous_interactions u) (VList []) /\
     defaulted (UserContext.demographics u) (VDict []) /\
     defaulted (UserContext.pain_points u) (VList []) /\
     defaulted (UserContext.goals u) (VList [])) /\
  (forall c, built_call c ->
     truthy (CallContext.priority c) = true /\
     defaulted (CallContext.follow_up_required c) (VBool false) /\
     defaulted (CallContext.success_metrics c) (VList []) /\
     defaulted (CallContext.key_points c) (VList [])) /\
  (forall c, built_config c ->
     defaulted (AgentConfig.compliance_requirements c) (VList [])).
Proof.
  split; [|split; [|split; [|split]]]; intros ? []; cbn; repeat split;
    first [ apply or_defaulted | now apply or_truthy_default ].
Qed.

Lemma constructors_normalise_witness :
  truthy (CallContext.priority
            (CallContext.__init__ (VStr "intro call") (Some (VStr ""))
               None (Some (VInt 0)) None None None)) = true.
Proof.
  apply (proj1 (proj2 (proj2 (proj2 constructors_normalise)))).
  constructor.
Defined.

(** ** What [from_dict] and the legacy adapter return *)

Lemma entity_from_dict_built :
  (forall data c, CompanyDetails.from_dict data = Ok c -> built_company c) /\
  (forall data p, AgentPersonality.from_dict data = Ok p ->
                  built_personality p) /\
  (forall data c, CallContext.from_dict data = Ok c -> built_call c) /\
  (forall data u, UserContext.from_dict data = Ok u -> built_user u).
Proof.
  repeat split; intros data c H;
    [ unfold CompanyDetails.from_dict in H
    | unfold AgentPersonality.from_dict in H
    | unfold CallContext.from_dict in H
    | unfold UserContext.from_dict in H ];
    bind_inv H; injection H as <-; constructor.
Qed.

Lemma from_dict_built data c :
  AgentConfig.from_dict data = Ok c -> built_config c.
Proof.
  destruct entity_from_dict_built as [Hc [Hp [Hcc Hu]]].
  unfold AgentConfig.from_dict. intros H. bind_inv H. injection H as <-.
  constructor; eauto.
Qed.

Lemma from_legacy_built metadata c :
  AgentConfig.from_legacy_metadata metadata = Ok c -> built_config c.
Proof.
  unfold AgentConfig.from_legacy_metadata. intros H. bind_inv H.
  injection H as <-. repeat constructor.
Qed.

Lemma built_roundtrip c :
  built_config c ->
  AgentConfig.from_dict (VDict (AgentConfig.to_dict c)) = Ok c.
Proof.
  intros [name cd ap cc uc ind ci lang tz cr Hcd Hap Hcc Huc].
  unfold AgentConfig.from_dict, AgentConfig.to_dict.
  cbn -[CompanyDetails.from_dict CompanyDetails.to_dict
        AgentPersonality.from_dict AgentPersonality.to_dict
        CallContext.from_dict CallContext.to_dict
        UserContext.from_dict UserContext.to_dict].
  rewrite (CompanyDetails_roundtrip _ Hcd), (AgentPersonality_roundtrip _ Hap),
    (CallContext_roundtrip _ Hcc), (UserContext_roundtrip _ Huc).
  cbn. unfold AgentConfig.__init__. cbn.
  now rewrite or_idem.
Qed.

(** X2. Whatever [AgentConfig.from_dict] or [from_legacy_metadata]
    returns survives serialization: [from_dict(c.to_dict())] gives [c]
    back, so [to_dict] after [from_dict] is a canonical form that a second
    pass leaves unchanged. *)
Theorem deserialized_configs_roundtrip :
  (forall data c,
     AgentConfig.from_dict data = Ok c ->
     AgentConfig.from_dict (VDict (AgentConfig.to_dict c)) = Ok c) /\
  (forall metadata c,
     AgentConfig.from_legacy_metadata metadata = Ok c ->
     AgentConfig.from_dict (VDict (AgentConfig.to_dict c)) = Ok c) /\
  (forall data c c',
     AgentConfig.from_dict data = Ok c ->
     AgentConfig.from_dict (VDict (AgentConfig.to_dict c)) = Ok c' ->
     AgentConfig.to_dict c' = AgentConfig.to_dict c).
Proof.
  split; [|split].
  - intros data c H. apply built_roundtrip. eapply from_dict_built; eauto.
  - intros md c H. apply built_roundtrip. eapply from_legacy_built; eauto.
  - intros data c c' H H'.
    rewrite (built_roundtrip c) in H' by (eapply from_dict_built; eauto).
    now injection H' as <-.
Qed.

Lemma deserialized_configs_roundtrip_witness :
  AgentConfig.from_dict (VDict (AgentConfig.to_dict default_config))
  = Ok default_config.
Proof.
  apply (proj1 deserialized_configs_roundtrip (VDict [])). reflexivity.
Defined.

(** ** When [from_dict] raises *)

Ltac canonical_cases :=
  unfold AgentConfig.from_dict, canonical_shaped, absent_or_dict;
  cbn; unfold get;
  repeat
    (match goal with
     | |- context [lookup ?d "company_details"] =>
         destruct (lookup d "company_details") as [[]|]
     | |- context [lookup ?d "agent_personality"] =>
         destruct (lookup d "agent_personality") as [[]|]
     | |- context [lookup ?d "call_context"] =>
         destruct (lookup d "call_context") as [[]|]
     | |- context [lookup ?d "user_context"] =>
         destruct (lookup d "user_context") as [[]|]
     end; cbn; unfold get).

Lemma from_dict_ok_iff_shaped (data : dict) :
  is_ok (AgentConfig.from_dict (VDict data)) = canonical_shaped data.
Proof. canonical_cases; reflexivity. Qed.

Lemma from_dict_raises_unshaped (data : dict) :
  canonical_shaped data = false ->
  AgentConfig.from_dict (VDict data) = Raise AttributeError.
Proof. canonical_cases; intros H; try reflexivity; discriminate H. Qed.

(** X3. [AgentConfig.from_dict] returns exactly when its argument is a
    mapping whose company_details, agent_personality, call_context and
    user_context are each absent or a mapping; otherwise, also for a
    nested value bound to None, it raises AttributeError.  Each entity's
    [from_dict] returns on every mapping and raises AttributeError on
    anything else. *)
Theorem from_dict_failure_modes :
  (forall data : dict,
     canonical_shaped data = true ->
     exists c, AgentConfig.from_dict (VDict data) = Ok c) /\
  (forall data : dict,
     canonical_shaped data = false ->
     AgentConfig.from_dict (VDict data) = Raise AttributeError) /\
  (forall data : value,
     (forall d, data <> VDict d) ->
     AgentConfig.from_dict data = Raise AttributeError /\
     CompanyDetails.from_dict data = Raise AttributeError /\
     AgentPersonality.from_dict data = Raise AttributeError /\
     CallContext.from_dict data = Raise AttributeError /\
     UserContext.from_dict data = Raise AttributeError) /\
  (forall d : dict,
     is_ok (CompanyDetails.from_dict (VDict d)) = true /\
     is_ok (AgentPersonality.from_dict (VDict d)) = true /\
     is_ok (CallContext.from_dict (VDict d)) = true /\
     is_ok (UserContext.from_dict (VDict d)) = true).
Proof.
  split; [|split; [|split]].
  - intros d H. rewrite <- from_dict_ok_iff_shaped in H.
    destruct (AgentConfig.from_dict (VDict d)) as [c|e];
      [eauto | discriminate].
  - exact from_dict_raises_unshaped.
  - intros data H. destruct data; try (repeat split; reflexivity).
    now destruct (H kvs).
  - intros d. repeat split; reflexivity.
Qed.

Lemma from_dict_failure_modes_witness :
  AgentConfig.from_dict
    (VDict [("agent_name", VStr "Ana"); ("user_context", VNone)])
  = Raise AttributeError.
Proof.
  apply (proj1 (proj2 from_dict_failure_modes)). reflexivity.
Defined.

(** ** Which bindings [from_dict] reads *)

Ltac in_keys := simpl; repeat first [left; reflexivity | right].

Ltac same_gets d1 d2 H :=
  repeat
    match goal with
    | |- context [get d1 ?k ?dflt] =>
        replace (get d1 k dflt) with (get d2 k dflt)
          by (unfold get; rewrite (H k); [reflexivity | in_keys])
    end.

Lemma personality_from_dict_agree d1 d2 :
  agree_on personality_keys d1 d2 ->
  AgentPersonality.from_dict (VDict d1) = AgentPersonality.from_dict (VDict d2).
Proof.
  intros H. unfold AgentPersonality.from_dict. cbn -[get].
  same_gets d1 d2 H. reflexivity.
Qed.

Lemma company_from_dict_agree d1 d2 :
  agree_on company_keys d1 d2 ->
  CompanyDetails.from_dict (VDict d1) = CompanyDetails.from_dict (VDict d2).
Proof.
  intros H. unfold CompanyDetails.from_dict. cbn -[get].
  same_gets d1 d2 H. reflexivity.
Qed.

Lemma user_from_dict_agree d1 d2 :
  agree_on user_keys d1 d2 ->
  UserContext.from_dict (VDict d1) = UserContext.from_dict (VDict d2).
Proof.
  intros H. unfold UserContext.from_dict. cbn -[get].
  same_gets d1 d2 H. reflexivity.
Qed.

Lemma call_from_dict_agree d1 d2 :
  agree_on call_keys d1 d2 ->
  CallContext.from_dict (VDict d1) = CallContext.from_dict (VDict d2).
Proof.
  intros H. unfold CallContext.from_dict. cbn -[get].
  same_gets d1 d2 H. reflexivity.
Qed.

Lemma config_from_dict_agree d1 d2 :
  agree_on config_keys d1 d2 ->
  AgentConfig.from_dict (VDict d1) = AgentConfig.from_dict (VDict d2).
Proof.
  intros H. unfold AgentConfig.from_dict.
  cbn -[get CompanyDetails.from_dict AgentPersonality.from_dict
        CallContext.from_dict UserContext.from_dict].
  same_gets d1 d2 H. reflexivity.
Qed.

Lemma agree_on_setitem_unknown keys d k v :
  ~ In k keys -> agree_on keys (setitem d k v) d.
Proof.
  intros Hk k' Hin. apply lookup_setitem_ne.
  apply String.eqb_neq. intros ->. contradiction.
Qed.

(** X4. Each [from_dict] depends only on what the mapping binds to the
    keys it reads: two mappings that agree on those keys give the same
    result, whatever else they bind and in whatever order; in particular
    a key that [from_dict] does not know is ignored without error. *)
Theorem from_dict_reads_only_its_keys :
  (forall d1 d2, agree_on config_keys d1 d2 ->
     AgentConfig.from_dict (VDict d1) = AgentConfig.from_dict (VDict d2)) /\
  (forall d1 d2, agree_on company_keys d1 d2 ->
     CompanyDetails.from_dict (VDict d1) = CompanyDetails.from_dict (VDict d2)) /\
  (forall d1 d2, agree_on personality_keys d1 d2 ->
     AgentPersonality.from_dict (VDict d1)
     = AgentPersonality.from_dict (VDict d2)) /\
  (forall d1 d2, agree_on call_keys d1 d2 ->
     CallContext.from_dict (VDict d1) = CallContext.from_dict (VDict d2)) /\
  (forall d1 d2, agree_on user_keys d1 d2 ->
     UserContext.from_dict (VDict d1) = UserContext.from_dict (VDict d2)) /\
  (forall d k v, ~ In k config_keys ->
     AgentConfig.from_dict (VDict (setitem d k v))
     = AgentConfig.from_dict (VDict d)).
Proof.
  split; [exact config_from_dict_agree|].
  split; [exact company_from_dict_agree|].
  split; [exact personality_from_dict_agree|].
  split; [exact call_from_dict_agree|].
  split; [exact user_from_dict_agree|].
  intros d k v Hk. apply config_from_dict_agree.
  now apply agree_on_setitem_unknown.
Qed.

Lemma from_dict_reads_only_its_keys_witness :
  AgentConfig.from_dict
    (VDict (setitem [("industry", VStr "insurance")] "phone_number"
              (VStr "+1-555-0123")))
  = AgentConfig.from_dict (VDict [("industry", VStr "insurance")]).
Proof.
  apply (proj2 (proj2 (proj2 (proj2 (proj2 from_dict_reads_only_its_keys))))).
  simpl. intros H. repeat (destruct H as [H | H]; [discriminate H|]).
  exact H.
Defined.

(** ** More on the builder *)


Lemma lookup_setitem_swap (d : dict) k1 k2 v1 v2 k :
  (k1 =? k2) = false ->
  lookup (setitem (setitem d k1 v1) k2 v2) k
  = lookup (setitem (setitem d k2 v2) k1 v1) k.
Proof.
  intros Hne.
  assert (Hne' : (k2 =? k1) = false) by now rewrite String.eqb_sym.
  destruct (String.eqb_spec k2 k) as [->|H2].
  - now rewrite lookup_setitem_eq, lookup_setitem_ne, lookup_setitem_eq.
  - apply String.eqb_neq in H2. rewrite (lookup_setitem_ne _ k2 k) by exact H2.
    destruct (String.eqb_spec k1 k) as [->|H1].
    + now rewrite !lookup_setitem_eq.
    + apply String.eqb_neq in H1.
      now rewrite !lookup_setitem_ne by assumption.
Qed.

Lemma then_build_set (σ : store) (r : ref) (b : AgentConfigBuilder.t) k v :
  σ !! r = Some b ->
  then_build (set_and_return r k v) σ
  = Some (AgentConfig.from_dict (VDict (setitem (_config b) k v))).
Proof.
  intros H. unfold then_build, build, set_and_return. rewrite H. simpl.
  now rewrite lookup_insert_eq.
Qed.

(** X5. The order in which two different keys are set on a builder does
    not change what [build()] returns (the insertion order of [_config]
    differs, the configuration built does not). *)
Theorem builder_setters_commute (σ : store) (r : ref)
    (b : AgentConfigBuilder.t) (k1 k2 : string) (v1 v2 : value) :
  σ !! r = Some b ->
  k1 <> k2 ->
  then_build (fun σ0 => '(r1, σ1) ← set_and_return r k1 v1 σ0;
                        set_and_return r1 k2 v2 σ1) σ
  = then_build (fun σ0 => '(r1, σ1) ← set_and_return r k2 v2 σ0;
                          set_and_return r1 k1 v1 σ1) σ.
Proof.
  intros H Hne. unfold then_build, build, set_and_return. rewrite H. simpl.
  rewrite !lookup_insert_eq. simpl. rewrite !lookup_insert_eq. simpl.
  f_equal. apply config_from_dict_agree. intros k _.
  apply lookup_setitem_swap. now apply String.eqb_neq.
Qed.

Lemma builder_setters_commute_witness :
  let σ : store := <[0%nat := {| _config := [] |}]> ∅ in
  then_build (fun σ0 => '(r1, σ1) ← with_industry 0%nat (VStr "insurance") σ0;
                        with_language r1 (VStr "fr") σ1) σ
  = then_build (fun σ0 => '(r1, σ1) ← with_language 0%nat (VStr "fr") σ0;
                          with_industry r1 (VStr "insurance") σ1) σ.
Proof.
  intros σ.
  apply (builder_setters_commute σ 0%nat {| _config := [] |}
           "industry" "language").
  - reflexivity.
  - discriminate.
Defined.

Ltac from_dict_after_set H :=
  unfold AgentConfig.from_dict in *;
  cbn -[get CompanyDetails.from_dict AgentPersonality.from_dict
        CallContext.from_dict UserContext.from_dict] in *;
  rewrite ?get_setitem_eq, ?get_setitem_ne by reflexivity;
  bind_inv H; injection H as <-;
  repeat match goal with
         | E : _ = Ok _ |- _ => rewrite E; clear E
         end;
  cbn -[get CompanyDetails.from_dict AgentPersonality.from_dict
        CallContext.from_dict UserContext.from_dict
        CompanyDetails.to_dict AgentPersonality.to_dict
        CallContext.to_dict UserContext.to_dict].

Lemma from_dict_set_scalar (d : dict) (c : AgentConfig.t) (k : string)
    (v : value) :
  In k ["agent_name"; "industry"; "custom_instructions"; "language";
        "timezone"] ->
  AgentConfig.from_dict (VDict d) = Ok c ->
  exists c',
    AgentConfig.from_dict (VDict (setitem d k v)) = Ok c' /\
    AgentConfig.to_dict c' = setitem (AgentConfig.to_dict c) k v.
Proof.
  intros Hk H.
  repeat (destruct Hk as [<- | Hk]); [..|destruct Hk];
    from_dict_after_set H;
    eexists; (split; [reflexivity|]); reflexivity.
Qed.

Lemma from_dict_set_compliance (d : dict) (c : AgentConfig.t) (v : value) :
  AgentConfig.from_dict (VDict d) = Ok c ->
  exists c',
    AgentConfig.from_dict (VDict (setitem d "compliance_requirements" v))
    = Ok c' /\
    AgentConfig.to_dict c'
    = setitem (AgentConfig.to_dict c) "compliance_requirements"
        (or_ v (VList [])).
Proof.
  intros H. from_dict_after_set H.
  eexists; (split; [reflexivity|]); reflexivity.
Qed.

Lemma from_dict_set_company (d : dict) (c : AgentConfig.t)
    (e : CompanyDetails.t) :
  built_company e ->
  AgentConfig.from_dict (VDict d) = Ok c ->
  exists c',
    AgentConfig.from_dict
      (VDict (setitem d "company_details" (VDict (CompanyDetails.to_dict e))))
    = Ok c' /\
    AgentConfig.company_details c' = e /\
    AgentConfig.to_dict c'
    = setitem (AgentConfig.to_dict c) "company_details"
        (VDict (CompanyDetails.to_dict e)).
Proof.
  intros He H. from_dict_after_set H.
  rewrite (CompanyDetails_roundtrip _ He). cbn -[get].
  eexists; (split; [reflexivity|]); split; reflexivity.
Qed.

Lemma from_dict_set_personality (d : dict) (c : AgentConfig.t)
    (e : AgentPersonality.t) :
  built_personality e ->
  AgentConfig.from_dict (VDict d) = Ok c ->
  exists c',
    AgentConfig.from_dict
      (VDict (setitem d "agent_personality"
                (VDict (AgentPersonality.to_dict e))))
    = Ok c' /\
    AgentConfig.agent_personality c' = e /\
    AgentConfig.to_dict c'
    = setitem (AgentConfig.to_dict c) "agent_personality"
        (VDict (AgentPersonality.to_dict e)).
Proof.
  intros He H. from_dict_after_set H.
  rewrite (AgentPersonality_roundtrip _ He). cbn -[get].
  eexists; (split; [reflexivity|]); split; reflexivity.
Qed.

Lemma from_dict_set_call (d : dict) (c : AgentConfig.t) (e : CallContext.t) :
  built_call e ->
  AgentConfig.from_dict (VDict d) = Ok c ->
  exists c',
    AgentConfig.from_dict
      (VDict (setitem d "call_context" (VDict (CallContext.to_dict e))))
    = Ok c' /\
    AgentConfig.call_context c' = e /\
    AgentConfig.to_dict c'
    = setitem (AgentConfig.to_dict c) "call_context"
        (VDict (CallContext.to_dict e)).
Proof.
  intros He H. from_dict_after_set H.
  rewrite (CallContext_roundtrip _ He). cbn -[get].
  eexists; (split; [reflexivity|]); split; reflexivity.
Qed.

Lemma from_dict_set_user (d : dict) (c : AgentConfig.t) (e : UserContext.t) :
  built_user e ->
  AgentConfig.from_dict (VDict d) = Ok c ->
  exists c',
    AgentConfig.from_dict
      (VDict (setitem d "user_context" (VDict (UserContext.to_dict e))))
    = Ok c' /\
    AgentConfig.user_context c' = e /\
    AgentConfig.to_dict c'
    = setitem (AgentConfig.to_dict c) "user_context"
        (VDict (UserContext.to_dict e)).
Proof.
  intros He H. from_dict_after_set H.
  rewrite (UserContext_roundtrip _ He). cbn -[get].
  eexists; (split; [reflexivity|]); split; reflexivity.
Qed.

(** X6. On a builder whose [build()] returns [c], one more setter followed
    by [build()] returns the configuration whose canonical mapping is that
    of [c] with the setter's key updated: a scalar is stored as given
    (compliance requirements through their [or []] default), and an entity
    built by its constructor comes back as that very entity. *)
Theorem build_after_setter (σ : store) (r : ref) (b : AgentConfigBuilder.t)
    (c : AgentConfig.t) :
  σ !! r = Some b ->
  build r σ = Some (Ok c) ->
  (forall v, exists c',
     then_build (with_agent_name r v) σ = Some (Ok c') /\
     AgentConfig.to_dict c' = setitem (AgentConfig.to_dict c) "agent_name" v) /\
  (forall v, exists c',
     then_build (with_industry r v) σ = Some (Ok c') /\
     AgentConfig.to_dict c' = setitem (AgentConfig.to_dict c) "industry" v) /\
  (forall v, exists c',
     then_build (with_custom_instructions r v) σ = Some (Ok c') /\
     AgentConfig.to_dict c'
     = setitem (AgentConfig.to_dict c) "custom_instructions" v) /\
  (forall v, exists c',
     then_build (with_language r v) σ = Some (Ok c') /\
     AgentConfig.to_dict c' = setitem (AgentConfig.to_dict c) "language" v) /\
  (forall v, exists c',
     then_build (with_timezone r v) σ = Some (Ok c') /\
     AgentConfig.to_dict c' = setitem (AgentConfig.to_dict c) "timezone" v) /\
  (forall v, exists c',
     then_build (with_compliance_requirements r v) σ = Some (Ok c') /\
     AgentConfig.to_dict c'
     = setitem (AgentConfig.to_dict c) "compliance_requirements"
         (or_ v (VList []))) /\
  (forall e, built_company e -> exists c',
     then_build (with_company r e) σ = Some (Ok c') /\
     AgentConfig.company_details c' = e /\
     AgentConfig.to_dict c'
     = setitem (AgentConfig.to_dict c) "company_details"
         (VDict (CompanyDetails.to_dict e))) /\
  (forall e, built_personality e -> exists c',
     then_build (with_personality r e) σ = Some (Ok c') /\
     AgentConfig.agent_personality c' = e /\
     AgentConfig.to_dict c'
     = setitem (AgentConfig.to_dict c) "agent_personality"
         (VDict (AgentPersonality.to_dict e))) /\
  (forall e, built_call e -> exists c',
     then_build (with_call_context r e) σ = Some (Ok c') /\
     AgentConfig.call_context c' = e /\
     AgentConfig.to_dict c'
     = setitem (AgentConfig.to_dict c) "call_context"
         (VDict (CallContext.to_dict e))) /\
  (forall e, built_user e -> exists c',
     then_build (with_user_context r e) σ = Some (Ok c') /\
     AgentConfig.user_context c' = e /\
     AgentConfig.to_dict c'
     = setitem (AgentConfig.to_dict c) "user_context"
         (VDict (UserContext.to_dict e))).
Proof.
  intros H Hb. unfold build in Hb. rewrite H in Hb. simpl in Hb.
  injection Hb as Hb.
  unfold with_agent_name, with_industry, with_custom_instructions,
    with_language, with_timezone, with_compliance_requirements,
    with_company, with_personality, with_call_context, with_user_context.
  repeat apply conj; intros;
    [ destruct (from_dict_set_scalar _ c "agent_name" v ltac:(in_keys) Hb)
        as [c' [E T]]
    | destruct (from_dict_set_scalar _ c "industry" v ltac:(in_keys) Hb)
        as [c' [E T]]
    | destruct (from_dict_set_scalar _ c "custom_instructions" v
                  ltac:(in_keys) Hb) as [c' [E T]]
    | destruct (from_dict_set_scalar _ c "language" v ltac:(in_keys) Hb)
        as [c' [E T]]
    | destruct (from_dict_set_scalar _ c "timezone" v ltac:(in_keys) Hb)
        as [c' [E T]]
    | destruct (from_dict_set_compliance _ c v Hb) as [c' [E T]]
    | destruct (from_dict_set_company _ c e ltac:(assumption) Hb)
        as [c' [E T]]
    | destruct (from_dict_set_personality _ c e ltac:(assumption) Hb)
        as [c' [E T]]
    | destruct (from_dict_set_call _ c e ltac:(assumption) Hb)
        as [c' [E T]]
    | destruct (from_dict_set_user _ c e ltac:(assumption) Hb)
        as [c' [E T]] ];
    exists c'; (split; [|exact T]);
    rewrite (then_build_set σ r b) by exact H; now rewrite E.
Qed.

Lemma build_after_setter_witness :
  let σ : store := <[0%nat := {| _config := [] |}]> ∅ in
  exists c',
    then_build (with_industry 0%nat (VStr "insurance")) σ = Some (Ok c') /\
    AgentConfig.to_dict c'
    = setitem (AgentConfig.to_dict default_config) "industry"
        (VStr "insurance").
Proof.
  intros σ.
  apply (proj1 (proj2
           (build_after_setter σ 0%nat {| _config := [] |} default_config
              eq_refl eq_refl))).
Defined.

(** X7. [AgentConfigBuilder()] yields a builder that was not in the store,
    with an empty [_config], whose [build()] is the all-defaults
    configuration; creating it, and calling a setter on one builder,
    leaves every other builder as it was. *)
Theorem builders_are_isolated (σ : store) :
  (let '(r, σ') := AgentConfigBuilder.__init__ σ in
   σ !! r = None /\
   σ' !! r = Some {| _config := [] |} /\
   build r σ' = Some (Ok default_config) /\
   forall r', r' <> r -> σ' !! r' = σ !! r') /\
  (forall r k v r1 σ1,
     set_and_return r k v σ = Some (r1, σ1) ->
     r1 = r /\ forall r', r' <> r -> σ1 !! r' = σ !! r').
Proof.
  split.
  - unfold AgentConfigBuilder.__init__. cbv zeta.
    assert (Hf : σ !! fresh (dom σ) = None)
      by (apply not_elem_of_dom, is_fresh).
    split; [exact Hf|]. split; [apply lookup_insert_eq|]. split.
    + unfold build. now rewrite lookup_insert_eq.
    + intros r' Hr'. now apply lookup_insert_ne.
  - intros r k v r1 σ1 H. unfold set_and_return in H.
    destruct (σ !! r) as [b|]; [|discriminate]. simpl in H.
    injection H as <- <-. split; [reflexivity|].
    intros r' Hr'. now apply lookup_insert_ne.
Qed.

Lemma builders_are_isolated_witness :
  let σ : store :=
    <[1%nat := {| _config := [] |}]>
      (<[0%nat := {| _config := [("industry", VStr "x")] |}]> ∅) in
  exists σ1,
    set_and_return 0%nat "industry" (VStr "y") σ = Some (0%nat, σ1) /\
    σ1 !! 1%nat = σ !! 1%nat.
Proof.
  intros σ. eexists. split; [reflexivity|].
  apply (proj2 (proj2 (builders_are_isolated σ) 0%nat "industry" (VStr "y")
                  0%nat _ eq_refl)).
  discriminate.
Defined.

(** X8. The builder and direct construction agree: a new builder on which
    all ten setters are called, with entities built by their constructors,
    builds exactly [AgentConfig(agent_name, company, personality,
    call_context, user_context, industry, custom_instructions, language,
    timezone, compliance_requirements)]. *)
Theorem builder_agrees_with_constructor (σ : store)
    (agent_name industry custom_instructions language timezone
     compliance_requirements : value)
    (cd : CompanyDetails.t) (ap : AgentPersonality.t) (cc : CallContext.t)
    (uc : UserContext.t) :
  built_company cd -> built_personality ap -> built_call cc ->
  built_user uc ->
  ('(r, σ) ← Some (AgentConfigBuilder.__init__ σ);
   '(r, σ) ← with_agent_name r agent_name σ;
   '(r, σ) ← with_company r cd σ;
   '(r, σ) ← with_personality r ap σ;
   '(r, σ) ← with_call_context r cc σ;
   '(r, σ) ← with_user_context r uc σ;
   '(r, σ) ← with_industry r industry σ;
   '(r, σ) ← with_custom_instructions r custom_instructions σ;
   '(r, σ) ← with_language r language σ;
   '(r, σ) ← with_timezone r timezone σ;
   '(r, σ) ← with_compliance_requirements r compliance_requirements σ;
   build r σ)
  = Some (Ok (AgentConfig.__init__ agent_name cd ap cc uc (Some industry)
                (Some custom_instructions) (Some language) (Some timezone)
                (Some compliance_requirements))).
Proof.
  intros Hcd Hap Hcc Huc.
  unfold AgentConfigBuilder.__init__, with_agent_name, with_company,
    with_personality, with_call_context, with_user_context, with_industry,
    with_custom_instructions, with_language, with_timezone,
    with_compliance_requirements, build, set_and_return.
  cbv zeta. simpl.
  repeat (rewrite lookup_insert_eq; simpl).
  unfold AgentConfig.from_dict.
  cbn -[CompanyDetails.from_dict CompanyDetails.to_dict
        AgentPersonality.from_dict AgentPersonality.to_dict
        CallContext.from_dict CallContext.to_dict
        UserContext.from_dict UserContext.to_dict].
  rewrite (CompanyDetails_roundtrip _ Hcd), (AgentPersonality_roundtrip _ Hap),
    (CallContext_roundtrip _ Hcc), (UserContext_roundtrip _ Huc).
  reflexivity.
Qed.

Lemma builder_agrees_with_constructor_witness :
  ('(r, σ) ← Some (AgentConfigBuilder.__init__ ∅);
   '(r, σ) ← with_agent_name r (VStr "David Thompson") σ;
   '(r, σ) ← with_company r CompanyTemplates.financial_services σ;
   '(r, σ) ← with_personality r PersonalityTemplates.professional_consultant σ;
   '(r, σ) ← with_call_context r
               (CallContext.__init__ (VStr "Quarterly portfolio review")
                  (Some (VStr "high")) None None None None None) σ;
   '(r, σ) ← with_user_context r
               (UserContext.__init__ (Some (VStr "Robert Kim")) None None None
                  None None None None None None None) σ;
   '(r, σ) ← with_industry r (VStr "financial services") σ;
   '(r, σ) ← with_custom_instructions r VNone σ;
   '(r, σ) ← with_language r (VStr "en") σ;
   '(r, σ) ← with_timezone r VNone σ;
   '(r, σ) ← with_compliance_requirements r VNone σ;
   build r σ)
  = Some (Ok (AgentConfig.__init__ (VStr "David Thompson")
                CompanyTemplates.financial_services
                PersonalityTemplates.professional_consultant
                (CallContext.__init__ (VStr "Quarterly portfolio review")
                   (Some (VStr "high")) None None None None None)
                (UserContext.__init__ (Some (VStr "Robert Kim")) None None None
                   None None None None None None None)
                (Some (VStr "financial services")) (Some VNone)
                (Some (VStr "en")) (Some VNone) (Some VNone))).
Proof.
  apply (builder_agrees_with_constructor ∅); constructor.
Defined.

Lemma legacy_result_dropped (metadata : value) (c : AgentConfig.t) :
  AgentConfig.from_legacy_metadata metadata = Ok c -> legacy_dropped c.
Proof.
  unfold AgentConfig.from_legacy_metadata. intros H.
  bind_inv H. injection H as <-.
  unfold legacy_dropped. cbn. repeat split; reflexivity.
Qed.

(** X9. The legacy adapter cannot carry a company's website, phone, email,
    mission_statement or values, a personality's tone, expertise_level or
    response_speed, or a call's expected_duration or call_script: whatever
    the metadata binds, every configuration it returns has them at their
    defaults.  The company name is read from [agent_config.company_name];
    a name inside [agent_config.company_details] is not read. *)
Theorem legacy_drops_fields :
  (forall (metadata : value) (c : AgentConfig.t),
     AgentConfig.from_legacy_metadata metadata = Ok c -> legacy_dropped c) /\
  (forall (metadata agent_config : dict) (c : AgentConfig.t),
     lookup metadata "agent_config" = Some (VDict agent_config) ->
     AgentConfig.from_legacy_metadata (VDict metadata) = Ok c ->
     CompanyDetails.name (AgentConfig.company_details c)
     = get agent_config "company_name" (VStr "Our Company")).
Proof.
  split.
  - exact legacy_result_dropped.
  - unfold AgentConfig.from_legacy_metadata. intros md ac c Hac H.
    assert (Hg : get md "agent_config" (VDict []) = VDict ac)
      by (unfold get; now rewrite Hac).
    cbn -[get] in H. rewrite Hg in H. cbn -[get] in H.
    bind_inv H. injection H as <-. reflexivity.
Qed.

Lemma legacy_drops_fields_witness :
  exists c,
    AgentConfig.from_legacy_metadata
      (VDict [("agent_config",
               VDict [("company_details",
                       VDict [("website", VStr "acme.example");
                              ("values", VList [VStr "trust"])]);
                      ("agent_personality",
                       VDict [("tone", VStr "casual")])])]) = Ok c /\
    legacy_dropped c.
Proof.
  eexists. split; [reflexivity|].
  apply (proj1 legacy_drops_fields
           (VDict [("agent_config",
                    VDict [("company_details",
                            VDict [("website", VStr "acme.example");
                                   ("values", VList [VStr "trust"])]);
                           ("agent_personality",
                            VDict [("tone", VStr "casual")])])])).
  reflexivity.
Defined.

(* ================================================================== *)
(** * Strings: what [strip()] keeps                                     *)
(* ================================================================== *)

Lemma append_cons (x : ascii) (a b : string) :
  String x a ++ b = String x (a ++ b).
Proof. reflexivity. Qed.

Lemma append_nil_l (b : string) : "" ++ b = b.
Proof. reflexivity. Qed.

Lemma append_assoc (a b c : string) : (a ++ b) ++ c = a ++ (b ++ c).
Proof.
  induction a as [|x a IH]; [reflexivity|].
  now rewrite !append_cons, IH.
Qed.

Lemma append_nil_r (a : string) : a ++ "" = a.
Proof.
  induction a as [|x a IH]; [reflexivity|]. now rewrite append_cons, IH.
Qed.

Lemma length_append (a b : string) :
  String.length (a ++ b) = String.length a + String.length b.
Proof.
  induction a as [|x a IH]; [reflexivity|].
  rewrite append_cons. simpl. now rewrite IH.
Qed.

Lemma prefix_nil_r (w : string) : String.prefix w "" = true -> w = "".
Proof. destruct w; [reflexivity | discriminate]. Qed.

Lemma prefix_cons (d e : ascii) (w a : string) :
  String.prefix (String d w) (String e a)
  = if Ascii.eqb d e then String.prefix w a else false.
Proof.
  simpl. destruct (ascii_dec d e) as [->|Hne].
  - now rewrite Ascii.eqb_refl.
  - apply Ascii.eqb_neq in Hne. now rewrite Hne.
Qed.

Lemma prefix_append_self (a b : string) : String.prefix a (a ++ b) = true.
Proof.
  induction a as [|x a IH]; [apply prefix_empty|].
  change (String x a ++ b) with (String x (a ++ b)).
  now rewrite prefix_cons, Ascii.eqb_refl.
Qed.

Lemma prefix_app_same (a x y : string) :
  String.prefix (a ++ x) (a ++ y) = String.prefix x y.
Proof.
  induction a as [|c a IH]; [reflexivity|].
  change (String c a ++ x) with (String c (a ++ x)).
  change (String c a ++ y) with (String c (a ++ y)).
  now rewrite prefix_cons, Ascii.eqb_refl.
Qed.

Lemma prefix_app_l (a b r : string) :
  String.prefix a b = true -> String.prefix a (b ++ r) = true.
Proof.
  revert b. induction a as [|c a IH]; intros b H; [apply prefix_empty|].
  destruct b as [|e b]; [discriminate|].
  change (String e b ++ r) with (String e (b ++ r)).
  rewrite prefix_cons in *. destruct (Ascii.eqb c e); [auto | discriminate].
Qed.

Lemma prefix_length (w a : string) :
  String.prefix w a = true -> String.length w <= String.length a.
Proof.
  revert a. induction w as [|d w IH]; intros a H; simpl; [lia|].
  destruct a as [|e a]; [discriminate|].
  rewrite prefix_cons in H. destruct (Ascii.eqb d e); [|discriminate].
  simpl. apply IH in H. lia.
Qed.

Lemma drop_append (a b : string) : drop (String.length a) (a ++ b) = b.
Proof.
  induction a as [|x a IH]; [now destruct b|].
  rewrite append_cons. simpl. exact IH.
Qed.

Lemma drop_length (n : nat) (a : string) :
  String.length (drop n a) = String.length a - n.
Proof.
  revert a. induction n as [|n IH]; intros a; simpl; [lia|].
  destruct a as [|x a]; simpl; [reflexivity | apply IH].
Qed.

Lemma drop_prefix_app (w a x : string) :
  String.prefix w a = true ->
  drop (String.length w) (a ++ x) = drop (String.length w) a ++ x.
Proof.
  revert a. induction w as [|d w IH]; intros a H.
  - reflexivity.
  - destruct a as [|e a]; [discriminate|].
    rewrite prefix_cons in H. destruct (Ascii.eqb d e); [|discriminate].
    rewrite append_cons. simpl. now apply IH.
Qed.

(** A pattern without the byte [c] is a prefix of [a ++ c ++ r] exactly
    when it is one of [a]. *)
Lemma prefix_blocked (c : ascii) (w a r : string) :
  mem c w = false ->
  String.prefix w (a ++ String c r) = String.prefix w a.
Proof.
  revert w. induction a as [|e a IH]; intros w Hw.
  - destruct w as [|d w]; [reflexivity|].
    change ("" ++ String c r) with (String c r). rewrite prefix_cons.
    unfold mem in Hw. simpl in Hw. apply orb_false_iff in Hw.
    destruct Hw as [Hd _]. rewrite Ascii.eqb_sym in Hd. now rewrite Hd.
  - destruct w as [|d w]; [reflexivity|].
    change (String e a ++ String c r) with (String e (a ++ String c r)).
    rewrite !prefix_cons. destruct (Ascii.eqb d e); [|reflexivity].
    apply IH. unfold mem in *. simpl in Hw. apply orb_false_iff in Hw. tauto.
Qed.

Lemma find_blocked (c : ascii) (ws : list string) (a r : string) :
  forallb (fun w => negb (mem c w)) ws = true ->
  find (fun w => String.prefix w (a ++ String c r)) ws
  = find (fun w => String.prefix w a) ws.
Proof.
  induction ws as [|w ws IH]; intros H; [reflexivity|].
  simpl in *. apply andb_true_iff in H. destruct H as [Hw Hws].
  apply negb_true_iff in Hw. rewrite (prefix_blocked c w a r Hw).
  destruct (String.prefix w a); [reflexivity | now apply IH].
Qed.

Lemma lstrip_fuel_S (ws : list string) (n : nat) (s : string) :
  lstrip_fuel ws (S n) s
  = match find (fun w => String.prefix w s) ws with
    | Some w => lstrip_fuel ws n (drop (String.length w) s)
    | None => s
    end.
Proof. reflexivity. Qed.

Lemma lstrip_fuel_blocked (c : ascii) (ws : list string) (n : nat)
    (a r : string) :
  forallb (fun w => negb (mem c w)) ws = true ->
  lstrip_fuel ws n (a ++ String c r) = lstrip_fuel ws n a ++ String c r.
Proof.
  intros Hc. revert a. induction n as [|n IH]; intros a; [reflexivity|].
  rewrite !lstrip_fuel_S, (find_blocked c ws a r Hc).
  destruct (find (fun w => String.prefix w a) ws) as [w|] eqn:E;
    [|reflexivity].
  apply find_some in E. destruct E as [_ Hp].
  rewrite (drop_prefix_app w a _ Hp). apply IH.
Qed.

Lemma lstrip_fuel_enough (ws : list string) (n m : nat) (a : string) :
  forallb (fun w => negb (w =? "")) ws = true ->
  String.length a <= n -> String.length a <= m ->
  lstrip_fuel ws n a = lstrip_fuel ws m a.
Proof.
  intros Hne. revert m a. induction n as [|n IH]; intros m a Hn Hm.
  - destruct a; [|simpl in Hn; lia].
    destruct m as [|m]; [reflexivity|]. rewrite lstrip_fuel_S.
    destruct (find (fun w => String.prefix w "") ws) as [w|] eqn:E;
      [|reflexivity].
    apply find_some in E. destruct E as [Hin Hp].
    apply prefix_nil_r in Hp. subst w.
    rewrite forallb_forall in Hne. specialize (Hne "" Hin). discriminate.
  - destruct m as [|m].
    + destruct a; [|simpl in Hm; lia]. rewrite lstrip_fuel_S.
      destruct (find (fun w => String.prefix w "") ws) as [w|] eqn:E;
        [|reflexivity].
      apply find_some in E. destruct E as [Hin Hp].
      apply prefix_nil_r in Hp. subst w.
      rewrite forallb_forall in Hne. specialize (Hne "" Hin). discriminate.
    + rewrite !lstrip_fuel_S.
      destruct (find (fun w => String.prefix w a) ws) as [w|] eqn:E;
        [|reflexivity].
      apply find_some in E. destruct E as [Hin Hp].
      assert (Hw : 1 <= String.length w).
      { rewrite forallb_forall in Hne. specialize (Hne w Hin).
        destruct w; [discriminate | simpl; lia]. }
      apply prefix_length in Hp.
      apply IH; rewrite drop_length; lia.
Qed.

Lemma whitespace_nonempty :
  forallb (fun w => negb (w =? "")) whitespace = true /\
  forallb (fun w => negb (w =? "")) (map rev_string whitespace) = true.
Proof. split; vm_compute; reflexivity. Qed.

Lemma blocker_reversed (c : ascii) :
  is_blocker c = true ->
  forallb (fun w => negb (mem c w)) (map rev_string whitespace) = true.
Proof.
  destruct c as [[] [] [] [] [] [] [] []]; vm_compute; intros H;
    first [reflexivity | discriminate H].
Qed.

(** [lstrip] stops at a byte of no whitespace code point. *)
Lemma lstrip_blocked (c : ascii) (a r : string) :
  is_blocker c = true ->
  lstrip (a ++ String c r) = lstrip a ++ String c r.
Proof.
  intros Hc. unfold lstrip.
  rewrite (lstrip_fuel_blocked c whitespace _ a r Hc). f_equal.
  apply lstrip_fuel_enough; [apply whitespace_nonempty | | lia].
  rewrite length_append. lia.
Qed.

(** ** Reversal *)

Lemma list_ascii_append (a b : string) :
  list_ascii_of_string (a ++ b)
  = (list_ascii_of_string a ++ list_ascii_of_string b)%list.
Proof.
  induction a as [|x a IH]; [reflexivity|].
  rewrite append_cons. simpl. now rewrite IH.
Qed.

Lemma string_of_list_app (l1 l2 : list ascii) :
  string_of_list_ascii (l1 ++ l2)%list
  = string_of_list_ascii l1 ++ string_of_list_ascii l2.
Proof.
  induction l1 as [|x l IH]; [reflexivity|].
  simpl. now rewrite append_cons, IH.
Qed.

Lemma rev_string_append (a b : string) :
  rev_string (a ++ b) = rev_string b ++ rev_string a.
Proof.
  unfold rev_string.
  now rewrite list_ascii_append, rev_app_distr, string_of_list_app.
Qed.

Lemma rev_string_cons (c : ascii) (a : string) :
  rev_string (String c a) = rev_string a ++ String c "".
Proof. unfold rev_string. simpl. now rewrite string_of_list_app. Qed.

Lemma rev_string_involutive (a : string) : rev_string (rev_string a) = a.
Proof.
  unfold rev_string.
  now rewrite list_ascii_of_string_of_list_ascii, rev_involutive,
    string_of_list_ascii_of_string.
Qed.

Lemma rev_string_length (a : string) :
  String.length (rev_string a) = String.length a.
Proof.
  induction a as [|c a IH]; [reflexivity|].
  rewrite rev_string_cons, length_append, IH. simpl. lia.
Qed.

(** [rstrip] stops at a byte of no whitespace code point. *)
Lemma rstrip_blocked (c : ascii) (x a : string) :
  is_blocker c = true ->
  rstrip (x ++ String c a) = x ++ String c (rstrip a).
Proof.
  intros Hc. unfold rstrip.
  rewrite rev_string_append, rev_string_cons, append_assoc.
  change (String c "" ++ rev_string x) with (String c (rev_string x)).
  rewrite (lstrip_fuel_blocked c _ _ _ _ (blocker_reversed c Hc)).
  rewrite rev_string_append, rev_string_cons, rev_string_involutive.
  rewrite append_assoc. f_equal. simpl. f_equal. f_equal.
  apply lstrip_fuel_enough; [apply whitespace_nonempty | |];
    rewrite rev_string_length, ?length_append; simpl; lia.
Qed.

Lemma has_blocker_app (a b : string) :
  has_blocker (a ++ b) = has_blocker a || has_blocker b.
Proof. unfold has_blocker. now rewrite list_ascii_append, existsb_app. Qed.

Lemma has_blocker_app_l (a b : string) :
  has_blocker a = true -> has_blocker (a ++ b) = true.
Proof. intros H. now rewrite has_blocker_app, H. Qed.

Lemma has_blocker_app_r (a b : string) :
  has_blocker b = true -> has_blocker (a ++ b) = true.
Proof. intros H. rewrite has_blocker_app, H. apply orb_true_r. Qed.

Lemma split_last_some (s k t : string) :
  split_last s = Some (k, t) ->
  k ++ t = s /\ exists x c, k = x ++ String c "" /\ is_blocker c = true.
Proof.
  revert k t. induction s as [|c r IH]; intros k t H; [discriminate|].
  simpl in H. destruct (split_last r) as [[k' t']|].
  - injection H as <- <-. destruct (IH k' t' eq_refl) as [E [x [d [-> Hd]]]].
    split; [now rewrite append_cons, E|]. exists (String c x), d. now split.
  - destruct (is_blocker c) eqn:Hc; [|discriminate].
    injection H as <- <-. split; [reflexivity|]. exists "", c. now split.
Qed.

Lemma split_last_none (s : string) :
  split_last s = None -> has_blocker s = false.
Proof.
  induction s as [|c r IH]; [reflexivity|]. simpl.
  destruct (split_last r) as [[k t]|]; [discriminate|].
  destruct (is_blocker c) eqn:Hc; [discriminate|]. intros _.
  unfold has_blocker in *. simpl. now rewrite Hc, IH.
Qed.

Lemma keep_trail (s : string) : keep s ++ trail s = s.
Proof.
  unfold keep, trail. destruct (split_last s) as [[k t]|] eqn:E;
    [apply (split_last_some s k t E) | reflexivity].
Qed.

Lemma keep_ends_blocked (s : string) :
  has_blocker s = true ->
  exists x c, keep s = x ++ String c "" /\ is_blocker c = true.
Proof.
  intros H. unfold keep. destruct (split_last s) as [[k t]|] eqn:E.
  - apply (split_last_some s k t E).
  - apply split_last_none in E. congruence.
Qed.

(** [rstrip] keeps a text up to its last byte of no whitespace code
    point, whatever follows. *)
Lemma rstrip_keep (s t : string) :
  has_blocker s = true ->
  rstrip (s ++ t) = keep s ++ rstrip (trail s ++ t).
Proof.
  intros H. destruct (keep_ends_blocked s H) as [x [c [Hk Hc]]].
  rewrite <- (keep_trail s) at 1. rewrite Hk, !append_assoc.
  change (String c "" ++ trail s ++ t) with (String c (trail s ++ t)).
  rewrite (rstrip_blocked c _ _ Hc). reflexivity.
Qed.

Lemma rstrip_app (a b : string) :
  has_blocker b = true -> rstrip (a ++ b) = a ++ rstrip b.
Proof.
  intros H. destruct (keep_ends_blocked b H) as [x [c [Hk Hc]]].
  rewrite <- (keep_trail b), Hk, !append_assoc.
  change (String c "" ++ trail b) with (String c (trail b)).
  rewrite <- append_assoc, (rstrip_blocked c _ _ Hc).
  rewrite (rstrip_blocked c _ _ Hc). now rewrite append_assoc.
Qed.

Lemma has_blocker_split (a : string) :
  has_blocker a = true ->
  exists x c y, a = x ++ String c y /\ is_blocker c = true.
Proof.
  intros H. destruct (keep_ends_blocked a H) as [x [c [Hk Hc]]].
  exists x, c, (trail a). split; [|exact Hc].
  rewrite <- (keep_trail a) at 1. now rewrite Hk, append_assoc.
Qed.

(** [lstrip] only looks at a text up to its first byte of no whitespace
    code point. *)
Lemma lstrip_app (a b : string) :
  has_blocker a = true -> lstrip (a ++ b) = lstrip a ++ b.
Proof.
  intros H. destruct (has_blocker_split a H) as [x [c [y [-> Hc]]]].
  rewrite append_assoc, append_cons, !(lstrip_blocked c) by exact Hc.
  now rewrite append_assoc, append_cons.
Qed.

Lemma concat_cons2 (x y : string) (l : list string) :
  String.concat "" (x :: y :: l) = x ++ String.concat "" (y :: l).
Proof. reflexivity. Qed.

Lemma concat_one (x : string) : String.concat "" [x] = x.
Proof. reflexivity. Qed.

Ltac blocked :=
  first [ apply has_blocker_app_l; vm_compute; reflexivity
        | apply has_blocker_app_r; blocked ].

(** From [build_prompt ... = Ok p] to the text of [p]: the template with
    its leading newline and indentation removed and [rstrip] applied to
    what follows its last sentence. *)
Ltac prompt_text H pers ci ui ik :=
  unfold PromptBuilder.build_prompt in H;
  apply bind_ok_inv in H; destruct H as [pers [?Hpers H]];
  apply bind_ok_inv in H; destruct H as [ci [?Hci H]];
  apply bind_ok_inv in H; destruct H as [ui [?Hui H]];
  apply bind_ok_inv in H; destruct H as [ik [?Hik H]];
  cbv beta zeta in H; injection H as H; symmetry in H;
  rewrite ?concat_cons2, ?concat_one, ?append_nil_l in H;
  unfold strip in H;
  repeat (rewrite rstrip_app in H by blocked);
  rewrite rstrip_keep in H by (vm_compute; reflexivity);
  match type of H with
  | context [keep ?L] =>
      let k := eval vm_compute in (keep L) in
      let t := eval vm_compute in (trail L) in
      replace (keep L) with k in H by (vm_compute; reflexivity);
      replace (trail L) with t in H by (vm_compute; reflexivity)
  end;
  rewrite lstrip_app in H by (vm_compute; reflexivity);
  match type of H with
  | context [lstrip ?L] =>
      let k := eval vm_compute in (lstrip L) in
      replace (lstrip L) with k in H by (vm_compute; reflexivity)
  end.


(** ** Occurrences in a concatenation *)

Lemma drop_0 (s : string) : drop 0 s = s.
Proof. now destruct s. Qed.

Lemma drop_app_add (a b : string) (q : nat) :
  drop (String.length a + q) (a ++ b) = drop q b.
Proof.
  induction a as [|x a IH]; [reflexivity|].
  rewrite append_cons. simpl. exact IH.
Qed.

Lemma drop_app_le (a b : string) (q : nat) :
  q <= String.length a -> drop q (a ++ b) = drop q a ++ b.
Proof.
  revert a. induction q as [|q IH]; intros a Hq.
  - now rewrite !drop_0.
  - destruct a as [|x a]; [simpl in Hq; lia|].
    rewrite append_cons. simpl. apply IH. simpl in Hq. lia.
Qed.

Lemma contains_at (sub s : string) (q : nat) :
  q <= String.length s -> occurs_at sub s q = true -> contains sub s = true.
Proof.
  intros Hq H. unfold contains. apply existsb_exists. exists q.
  split; [apply in_seq; lia | exact H].
Qed.

Lemma contains_inv (sub s : string) :
  contains sub s = true ->
  exists q, q <= String.length s /\ occurs_at sub s q = true.
Proof.
  unfold contains. intros H. apply existsb_exists in H.
  destruct H as [q [Hin H]]. apply in_seq in Hin. exists q. split; [lia|easy].
Qed.

Lemma contains_prefix (sub s : string) :
  String.prefix sub s = true -> contains sub s = true.
Proof.
  intros H. apply (contains_at sub s 0); [lia|].
  unfold occurs_at. now rewrite drop_0.
Qed.

Lemma contains_app_r (sub a b : string) :
  contains sub b = true -> contains sub (a ++ b) = true.
Proof.
  intros H. apply contains_inv in H. destruct H as [q [Hq H]].
  apply (contains_at _ _ (String.length a + q)).
  - rewrite length_append. lia.
  - unfold occurs_at in *. now rewrite drop_app_add.
Qed.

Lemma contains_app_l (sub a b : string) :
  contains sub a = true -> contains sub (a ++ b) = true.
Proof.
  intros H. apply contains_inv in H. destruct H as [q [Hq H]].
  apply (contains_at _ _ q).
  - rewrite length_append. lia.
  - unfold occurs_at in *. rewrite drop_app_le by exact Hq.
    now apply prefix_app_l.
Qed.

(** A text that ends with [lit], followed by [y] and a text that begins
    with [lit']. *)
Lemma occurs_across (L lit y lit' L' rest : string) :
  occurs_at lit L (String.length L - String.length lit) = true ->
  String.length lit + (String.length L - String.length lit)
  = String.length L ->
  String.prefix lit' L' = true ->
  occurs_at (lit ++ y ++ lit') (L ++ y ++ L' ++ rest)
    (String.length L - String.length lit) = true.
Proof.
  intros Hs Hlen Hp. unfold occurs_at in *.
  set (n := String.length L - String.length lit) in *.
  rewrite drop_app_le by lia.
  apply prefix_correct in Hs.
  assert (Hd : drop n L = lit).
  { assert (String.length (drop n L) = String.length lit)
      by (rewrite drop_length; lia).
    clear Hlen Hp. revert Hs H. generalize (drop n L). intros d.
    revert d. induction lit as [|c lit IH]; intros d Hs Hl.
    - destruct d; [reflexivity | discriminate].
    - destruct d as [|e d]; [discriminate|]. simpl in Hs, Hl.
      injection Hs as <- Hs. f_equal. apply IH; [exact Hs | lia]. }
  rewrite Hd, prefix_app_same, prefix_app_same.
  now apply prefix_app_l.
Qed.

Lemma contains_across (L lit y lit' L' rest : string) :
  occurs_at lit L (String.length L - String.length lit) = true ->
  String.length lit + (String.length L - String.length lit)
  = String.length L ->
  String.prefix lit' L' = true ->
  contains (lit ++ y ++ lit') (L ++ y ++ L' ++ rest) = true.
Proof.
  intros Hs Hlen Hp.
  apply (contains_at _ _ (String.length L - String.length lit)).
  - rewrite length_append. lia.
  - now apply occurs_across.
Qed.

Lemma contains_across_end (L lit y rest : string) :
  occurs_at lit L (String.length L - String.length lit) = true ->
  String.length lit + (String.length L - String.length lit)
  = String.length L ->
  contains (lit ++ y) (L ++ y ++ rest) = true.
Proof.
  intros Hs Hlen.
  pose proof (contains_across L lit y "" "" rest Hs Hlen eq_refl) as H.
  now rewrite append_nil_r, append_nil_l in H.
Qed.

Ltac closed := vm_compute; reflexivity.

(** Finds [sub] in a right-nested concatenation; the computations run on
    the literal pieces only. *)
Ltac find_sub :=
  lazymatch goal with
  | |- contains ?X (?X ++ _) = true =>
      apply contains_prefix; apply prefix_append_self
  | |- contains (_ ++ ?y ++ String _ _)
         (String _ _ ++ ?y ++ String _ _ ++ _) = true =>
      first [ apply contains_across; [closed | closed | closed]
            | apply contains_app_r; find_sub ]
  | |- contains (String _ _ ++ ?y) (String _ _ ++ ?y ++ _) = true =>
      first [ apply contains_across_end; [closed | closed]
            | apply contains_app_r; find_sub ]
  | |- contains (String _ _) (String _ _ ++ _) = true =>
      first [ apply contains_app_l; closed
            | apply contains_app_r; find_sub ]
  | |- contains _ (_ ++ _) = true => apply contains_app_r; find_sub
  end.

(* ================================================================== *)
(** * Further properties of the prompt builder                          *)
(* ================================================================== *)

(** X10. Whatever the fields hold, also leading or trailing whitespace,
    [strip()] removes nothing of them: every prompt begins with
    "You are <agent_name>, a <traits> <industry> professional
    representing <company name>." and contains the company block, the
    user block and the industry paragraph verbatim, the line of the call
    purpose, of the communication style and of the approach, and the
    sentence naming the industry. *)
Theorem prompt_keeps_fields (repr_container json_dumps : value -> string)
    (config : AgentConfig.t) (prompt : string) :
  PromptBuilder.build_prompt repr_container json_dumps config = Ok prompt ->
  exists personality_str company_info user_info industry_knowledge,
    (if truthy (AgentPersonality.traits (AgentConfig.agent_personality config))
     then join ", "
            (AgentPersonality.traits (AgentConfig.agent_personality config))
     else Ok "professional, friendly, and consultative")
    = Ok personality_str /\
    PromptBuilder._format_company_info repr_container
      (AgentConfig.company_details config) = Ok company_info /\
    PromptBuilder._format_user_info repr_container json_dumps
      (AgentConfig.user_context config) = Ok user_info /\
    PromptBuilder._get_industry_knowledge (AgentConfig.industry config)
    = Ok industry_knowledge /\
    String.prefix
      ("You are " ++ str repr_container (AgentConfig.agent_name config)
       ++ ", a " ++ personality_str ++ " "
       ++ str repr_container (AgentConfig.industry config)
       ++ " professional representing "
       ++ str repr_container
            (CompanyDetails.name (AgentConfig.company_details config))
       ++ ".") prompt = true /\
    contains company_info prompt = true /\
    contains user_info prompt = true /\
    contains industry_knowledge prompt = true /\
    contains
      ("Call Purpose: "
       ++ str repr_container
            (CallContext.purpose (AgentConfig.call_context config)))
      prompt = true /\
    contains
      ("- You are "
       ++ str repr_container
            (AgentPersonality.communication_style
               (AgentConfig.agent_personality config)))
      prompt = true /\
    contains
      ("- " ++ replace "," " and" personality_str ++ " in your approach")
      prompt = true /\
    contains
      ("engage with the client about their "
       ++ str repr_container (AgentConfig.industry config) ++ " needs")
      prompt = true.
Proof.
  intros H. prompt_text H pers ci ui ik.
  exists pers, ci, ui, ik. repeat (split; [assumption|]). subst prompt.
  split.
  { rewrite !prefix_app_same. apply prefix_app_l. closed. }
  repeat split; find_sub.
Qed.

Lemma prompt_keeps_fields_witness :
  contains "Call Purpose: intro call"
    (match PromptBuilder.build_prompt (fun _ => "") (fun _ => "")
             scenario_config with
     | Ok p => p
     | Raise _ => ""
     end) = true.
Proof.
  destruct (prompt_keeps_fields (fun _ => "") (fun _ => "") scenario_config
              _ eq_refl)
    as [pers [ci [ui [ik [_ [_ [_ [_ [_ [_ [_ [_ [H _]]]]]]]]]]]]].
  exact H.
Defined.

(** ** Order of the pieces *)

Lemma in_order_shift (a b : string) (subs : list string) (k : nat) :
  in_order_from k subs b ->
  in_order_from (String.length a + k) subs (a ++ b).
Proof.
  revert k. induction subs as [|sub rest IH]; intros k H; [exact I|].
  destruct H as [q [Hq [Hocc Hrest]]].
  exists (String.length a + q). split; [rewrite length_append; lia|].
  split.
  - unfold occurs_at in *. now rewrite drop_app_add.
  - apply IH in Hrest. now rewrite Nat.add_succ_r in Hrest.
Qed.

Lemma in_order_skip (a b : string) (subs : list string) :
  in_order_from 0 subs b -> in_order_from 0 subs (a ++ b).
Proof.
  intros H. apply (in_order_from_mono _ (String.length a + 0)); [lia|].
  now apply in_order_shift.
Qed.

Lemma in_order_skip1 (a b : string) (subs : list string) :
  1 <= String.length a ->
  in_order_from 0 subs b -> in_order_from 1 subs (a ++ b).
Proof.
  intros Ha H. apply (in_order_from_mono _ (String.length a + 0)); [lia|].
  now apply in_order_shift.
Qed.

Lemma in_order_head (x a b : string) (rest : list string) :
  in_order_from 1 rest (a ++ b) ->
  in_order_from 0 (x :: rest) (x ++ a ++ b).
Proof.
  intros H. exists 0. split; [lia|]. split.
  - unfold occurs_at. rewrite drop_0. apply prefix_append_self.
  - apply (in_order_from_mono _ (String.length x + 1)); [lia|].
    now apply in_order_shift.
Qed.

Lemma in_order_across (L lit y a b : string) (rest : list string) :
  occurs_at lit L (String.length L - String.length lit) = true ->
  String.length lit + (String.length L - String.length lit)
  = String.length L ->
  1 <= String.length L - String.length lit ->
  in_order_from 1 rest (a ++ b) ->
  in_order_from 1 ((lit ++ y) :: rest) (L ++ y ++ a ++ b).
Proof.
  intros Hs Hlen Hn H.
  exists (String.length L - String.length lit).
  split; [rewrite length_append; lia|]. split.
  - pose proof (occurs_across L lit y "" a b Hs Hlen (prefix_empty a)) as Ho.
    now rewrite append_nil_r in Ho.
  - rewrite <- (append_assoc L).
    apply (in_order_from_mono _ (String.length (L ++ y) + 1));
      [rewrite !length_append; lia|].
    now apply in_order_shift.
Qed.

Ltac literal_length := vm_compute; lia.

Ltac order_step :=
  lazymatch goal with
  | |- in_order_from _ [] _ => exact I
  | |- in_order_from 0 (?x :: _) (?x ++ String _ _ ++ _) =>
      apply in_order_head
  | |- in_order_from 1 ((String _ _ ++ ?y) :: _)
         (String _ _ ++ ?y ++ String _ _ ++ _) =>
      first [ apply in_order_across; [closed | closed | literal_length |]
            | apply in_order_skip1; [literal_length|] ]
  | |- in_order_from 1 _ (String _ _ ++ _) =>
      apply in_order_skip1; [literal_length|]
  | |- in_order_from 0 _ (_ ++ _) => apply in_order_skip
  end.

(** X11. For every configuration whose prompt renders, the opening
    "You are <agent_name>", the company block, the user block, the line
    "Call Purpose: <purpose>" and the industry paragraph occur in the
    prompt in this order. *)
Theorem prompt_order (repr_container json_dumps : value -> string)
    (config : AgentConfig.t) (prompt : string) :
  PromptBuilder.build_prompt repr_container json_dumps config = Ok prompt ->
  exists company_info user_info industry_knowledge,
    PromptBuilder._format_company_info repr_container
      (AgentConfig.company_details config) = Ok company_info /\
    PromptBuilder._format_user_info repr_container json_dumps
      (AgentConfig.user_context config) = Ok user_info /\
    PromptBuilder._get_industry_knowledge (AgentConfig.industry config)
    = Ok industry_knowledge /\
    contains_in_order
      [ "You are " ++ str repr_container (AgentConfig.agent_name config);
        company_info;
        user_info;
        "Call Purpose: "
        ++ str repr_container
             (CallContext.purpose (AgentConfig.call_context config));
        industry_knowledge ]
      prompt.
Proof.
  intros H. prompt_text H pers ci ui ik.
  exists ci, ui, ik. repeat (split; [assumption|]). subst prompt.
  unfold contains_in_order.
  rewrite <- (append_assoc "You are ").
  repeat order_step.
Qed.

Lemma prompt_order_witness :
  exists company_info user_info industry_knowledge,
    PromptBuilder._format_company_info (fun _ => "")
      (AgentConfig.company_details default_config) = Ok company_info /\
    PromptBuilder._format_user_info (fun _ => "") (fun _ => "")
      (AgentConfig.user_context default_config) = Ok user_info /\
    PromptBuilder._get_industry_knowledge (AgentConfig.industry default_config)
    = Ok industry_knowledge /\
    contains_in_order
      [ "You are Professional Assistant"; company_info; user_info;
        "Call Purpose: "; industry_knowledge ]
      (match PromptBuilder.build_prompt (fun _ => "") (fun _ => "")
               default_config with
       | Ok p => p
       | Raise _ => ""
       end).
Proof.
  exact (prompt_order (fun _ => "") (fun _ => "") default_config _ eq_refl).
Defined.

(** ** The tool catalogue and the end of the prompt *)

Lemma ends_with_app (e a b : string) : ends_with e b -> ends_with e (a ++ b).
Proof.
  intros [body ->]. exists (a ++ body). now rewrite append_assoc.
Qed.

Lemma ends_with_across (e pre t : string) : ends_with (e ++ t) ((pre ++ e) ++ t).
Proof. exists pre. now rewrite append_assoc. Qed.

Lemma rstrip_custom (s : string) (c : ascii) :
  is_blocker c = true ->
  rstrip ("

            " ++ (s ++ String c "") ++ "
        ")
  = "

            " ++ s ++ String c "".
Proof.
  intros Hc.
  match goal with
  | |- rstrip (?W ++ _ ++ ?E) = _ =>
      replace (W ++ (s ++ String c "") ++ E) with ((W ++ s) ++ String c E)
        by (now rewrite !append_assoc);
      rewrite (rstrip_blocked c _ _ Hc);
      replace (rstrip E) with "" by closed
  end.
  now rewrite append_assoc.
Qed.

Ltac suffix_of_literal :=
  lazymatch goal with
  | |- ends_with ?e ?K =>
      let n := eval vm_compute in (String.length K - String.length e) in
      let pre := eval vm_compute in (substring 0 n K) in
      exists pre; closed
  end.

(** X12. The tool catalogue is static: every prompt lists the same eight
    tools, whatever the configuration.  Custom instructions come last:
    without them the prompt ends with the last sentence of the catalogue,
    and custom instructions that end in a byte of no whitespace code point
    close the prompt verbatim, one blank line after the catalogue. *)
Theorem prompt_catalogue_and_end (repr_container json_dumps : value -> string)
    (config : AgentConfig.t) (prompt : string) :
  PromptBuilder.build_prompt repr_container json_dumps config = Ok prompt ->
  (contains "- end_call: " prompt = true /\
   contains "- transfer_call: " prompt = true /\
   contains "- schedule_property_viewing: " prompt = true /\
   contains "- schedule_consultation: " prompt = true /\
   contains "- send_email: " prompt = true /\
   contains "- get_property_info: " prompt = true /\
   contains "- send_property_listings: " prompt = true /\
   contains "- detected_answering_machine: " prompt = true) /\
  (truthy (AgentConfig.custom_instructions config) = false ->
   ends_with "voicemail AFTER hearing the greeting." prompt) /\
  (forall (s : string) (c : ascii),
     AgentConfig.custom_instructions config = VStr (s ++ String c "") ->
     is_blocker c = true ->
     ends_with
       ("voicemail AFTER hearing the greeting." ++ nl ++ nl ++ "            "
        ++ s ++ String c "") prompt).
Proof.
  intros H. prompt_text H pers ci ui ik. subst prompt.
  split; [repeat split; find_sub|]. split.
  - intros Hc. unfold or_. rewrite Hc.
    change (str repr_container (VStr "")) with "".
    replace (rstrip _) with "" by closed.
    repeat lazymatch goal with
           | |- ends_with _ (_ ++ _ ++ _) => apply ends_with_app
           end.
    rewrite append_nil_r. suffix_of_literal.
  - intros s c Hs Hc. rewrite Hs. unfold or_.
    assert (Ht : truthy (VStr (s ++ String c "")) = true)
      by (now destruct s).
    rewrite Ht. change (str repr_container (VStr ?x)) with x.
    rewrite (rstrip_custom s c Hc).
    repeat lazymatch goal with
           | |- ends_with _ (_ ++ _ ++ _ ++ _ ++ _) => apply ends_with_app
           end.
    match goal with
    | |- ends_with (?e ++ ?t) (?K ++ _) =>
        let n := eval vm_compute in (String.length K - String.length e) in
        let pre := eval vm_compute in (substring 0 n K) in
        replace K with (pre ++ e) by closed
    end.
    apply ends_with_across.
Qed.

Lemma prompt_catalogue_and_end_witness :
  ends_with "voicemail AFTER hearing the greeting."
    (match PromptBuilder.build_prompt (fun _ => "") (fun _ => "")
             scenario_config with
     | Ok p => p
     | Raise _ => ""
     end).
Proof.
  apply (proj1 (proj2 (prompt_catalogue_and_end (fun _ => "") (fun _ => "")
                         scenario_config _ eq_refl))).
  reflexivity.
Defined.

(** ** The personality in the prompt *)

Lemma replace_app (old : ascii) (new a b : string) :
  replace old new (a ++ b) = replace old new a ++ replace old new b.
Proof.
  induction a as [|c a IH]; [reflexivity|].
  rewrite append_cons. simpl. destruct (Ascii.eqb c old).
  - now rewrite IH, append_assoc.
  - now rewrite IH, append_cons.
Qed.

Lemma replace_absent (old : ascii) (new s : string) :
  mem old s = false -> replace old new s = s.
Proof.
  unfold mem. induction s as [|c s IH]; intros H; [reflexivity|].
  simpl in *. apply orb_false_iff in H. destruct H as [Hc Hs].
  rewrite Ascii.eqb_sym in Hc. now rewrite Hc, IH.
Qed.

Lemma replace_comma_join (l : list string) :
  (forall t, In t l -> mem ","%char t = false) ->
  replace "," " and" (String.concat ", " l) = String.concat " and " l.
Proof.
  induction l as [|x l IH]; intros H; [reflexivity|].
  destruct l as [|y l].
  - simpl. apply replace_absent, H. now left.
  - change (String.concat ", " (x :: y :: l))
      with (x ++ ", " ++ String.concat ", " (y :: l)).
    change (String.concat " and " (x :: y :: l))
      with (x ++ " and " ++ String.concat " and " (y :: l)).
    rewrite !replace_app, IH by (intros t Ht; apply H; now right).
    rewrite (replace_absent _ _ x) by (apply H; now left).
    reflexivity.
Qed.

Lemma join_strs (sep : string) (l : list string) :
  join sep (VList (map VStr l)) = Ok (String.concat sep l).
Proof.
  unfold join.
  assert (H : all_str (map VStr l) = Some l)
    by (induction l as [|x l IH]; simpl; [reflexivity | now rewrite IH]).
  now rewrite H.
Qed.

(** X13. The traits of the personality reach the prompt twice.  With no
    traits the opening reads "a professional, friendly, and consultative
    <industry> professional" and the approach line, where every comma
    becomes " and", reads "professional and friendly and and consultative
    in your approach".  Traits that are a non-empty list of strings free
    of commas are joined with ", " in the opening and with " and " in the
    approach line. *)
Theorem personality_in_prompt (repr_container json_dumps : value -> string)
    (config : AgentConfig.t) (prompt : string) :
  PromptBuilder.build_prompt repr_container json_dumps config = Ok prompt ->
  (truthy (AgentPersonality.traits (AgentConfig.agent_personality config))
   = false ->
   String.prefix
     ("You are " ++ str repr_container (AgentConfig.agent_name config)
      ++ ", a " ++ "professional, friendly, and consultative" ++ " ")
     prompt = true /\
   contains
     ("- " ++ "professional and friendly and and consultative"
      ++ " in your approach") prompt = true) /\
  (forall l : list string,
     AgentPersonality.traits (AgentConfig.agent_personality config)
     = VList (map VStr l) ->
     l <> [] ->
     (forall t, In t l -> mem ","%char t = false) ->
     String.prefix
       ("You are " ++ str repr_container (AgentConfig.agent_name config)
        ++ ", a " ++ String.concat ", " l ++ " ") prompt = true /\
     contains ("- " ++ String.concat " and " l ++ " in your approach") prompt
     = true).
Proof.
  intros H. prompt_text H pers ci ui ik. subst prompt. split.
  - intros Ht. rewrite Ht in Hpers. injection Hpers as <-.
    replace (replace "," " and" "professional, friendly, and consultative")
      with "professional and friendly and and consultative" by closed.
    split; [|find_sub].
    rewrite !prefix_app_same. apply prefix_append_self.
  - intros l Hl Hne Hcomma. rewrite Hl in Hpers.
    assert (Ht : truthy (VList (map VStr l)) = true)
      by (destruct l; [contradiction | reflexivity]).
    rewrite Ht, join_strs in Hpers. injection Hpers as <-.
    rewrite (replace_comma_join l Hcomma).
    split; [|find_sub].
    rewrite !prefix_app_same. apply prefix_append_self.
Qed.

Lemma personality_in_prompt_witness :
  contains "- x and y in your approach"
    (match PromptBuilder.build_prompt (fun _ => "") (fun _ => "")
             scenario_config with
     | Ok p => p
     | Raise _ => ""
     end) = true.
Proof.
  apply (proj2 (personality_in_prompt (fun _ => "") (fun _ => "")
                  scenario_config _ eq_refl) ["x"; "y"]).
  - reflexivity.
  - discriminate.
  - intros t [<- | [<- | []]]; reflexivity.
Defined.

(** ** When rendering raises *)



Section Failures.

Variable repr_container : value -> string.
Variable json_dumps : value -> string.





End Failures.



(** ** The user block *)



(** ** Industry knowledge on any value *)

(** X16. [_get_industry_knowledge] raises TypeError exactly on a list or
    a dict (an unhashable key) and otherwise returns one of the five
    paragraphs of its table; None, a bool or an int get the "default"
    paragraph, and so does the string "default" itself. *)
Theorem industry_knowledge_total (industry : value) :
  (hashable industry = false ->
   PromptBuilder._get_industry_knowledge industry = Raise TypeError) /\
  (hashable industry = true ->
   exists block,
     PromptBuilder._get_industry_knowledge industry = Ok block /\
     In block (map snd PromptBuilder.knowledge_map)) /\
  ((forall s, industry <> VStr s) -> hashable industry = true ->
   PromptBuilder._get_industry_knowledge industry = Ok default_paragraph) /\
  PromptBuilder._get_industry_knowledge (VStr "default") = Ok default_paragraph.
Proof.
  split; [|split; [|split]].
  - destruct industry; simpl; congruence.
  - destruct industry as [| | |s| |]; try discriminate; intros _;
      try (eexists; split; [reflexivity|]; simpl; tauto).
    unfold PromptBuilder._get_industry_knowledge, PromptBuilder.knowledge_map.
    rewrite !table_lookup_cons.
    repeat match goal with
           | |- context [if ?k =? s then _ else _] => destruct (k =? s)
           end;
      (eexists; split; [reflexivity|]); simpl; tauto.
  - intros Hs. destruct industry as [| | |s| |]; simpl; try discriminate;
      try reflexivity. now destruct (Hs s).
  - reflexivity.
Qed.

Lemma industry_knowledge_total_witness :
  PromptBuilder._get_industry_knowledge VNone = Ok default_paragraph.
Proof.
  apply (proj1 (proj2 (proj2 (industry_knowledge_total VNone)))).
  - discriminate.
  - reflexivity.
Defined.

(** ** From job metadata to the prompt *)




(** ** The templates *)



(** ** The structured output stream *)

Section StreamFacts.

Context {char : Type}.
Variable from_json :
  list char -> option (@StructuredOutput.ResponseEmotion char).

Lemma run_acc_text (callback : bool) (chunks : list (list char))
    (st : StructuredOutput.state) :
  StructuredOutput.acc_text
    (fst (StructuredOutput.run from_json callback st chunks))
  = (StructuredOutput.acc_text st ++ List.concat chunks)%list.
Proof.
  revert st. induction chunks as [|chunk rest IH]; intros st.
  - simpl. now rewrite app_nil_r.
  - simpl.
    destruct (StructuredOutput.step from_json callback st chunk)
      as [st' now] eqn:E.
    specialize (IH st').
    destruct (StructuredOutput.run from_json callback st' rest)
      as [st'' later].
    simpl in *. rewrite IH.
    assert (StructuredOutput.acc_text st'
            = (StructuredOutput.acc_text st ++ chunk)%list) as ->.
    { unfold StructuredOutput.step in E.
      destruct (from_json _) as [[vi [[|c r]|]]|];
        injection E as <- _; reflexivity. }
    now rewrite <- app_assoc.
Qed.

Lemma yielded_app (a b : list (@StructuredOutput.event char)) :
  yielded (a ++ b)%list = (yielded a ++ yielded b)%list.
Proof. unfold yielded. apply flat_map_app. Qed.


Lemma yielded_called (callback : bool)
    (resp : @StructuredOutput.ResponseEmotion char) :
  yielded (if callback then [StructuredOutput.Callback resp] else []) = [].
Proof. now destruct callback. Qed.

Lemma yielded_delta (d : list char) :
  yielded match d with
          | [] => []
          | _ :: _ => [StructuredOutput.Yield d]
          end = d.
Proof.
  destruct d; [reflexivity|]. unfold yielded. cbn [flat_map].
  apply app_nil_r.
Qed.

Lemma skipn_extension (a d : list char) :
  skipn (List.length a) (a ++ d)%list = d.
Proof. induction a; [reflexivity | exact IHa]. Qed.

Lemma last_nonempty (x : list char) (l : list (list char))
    (d d' : list char) :
  List.last (x :: l) d = List.last (x :: l) d'.
Proof.
  revert x. induction l as [|y l IH]; intros x; [reflexivity|].
  change (List.last (y :: l) d = List.last (y :: l) d'). apply IH.
Qed.

Lemma run_growing (callback : bool) (chunks : list (list char))
    (st : StructuredOutput.state) :
  growing (StructuredOutput.last_response st)
    (responses from_json (StructuredOutput.acc_text st) chunks) ->
  (StructuredOutput.last_response st
   ++ yielded (snd (StructuredOutput.run from_json callback st chunks)))%list
  = StructuredOutput.last_response
      (fst (StructuredOutput.run from_json callback st chunks)) /\
  StructuredOutput.last_response
    (fst (StructuredOutput.run from_json callback st chunks))
  = List.last (responses from_json (StructuredOutput.acc_text st) chunks)
      (StructuredOutput.last_response st).
Proof.
  revert st. induction chunks as [|chunk rest IH]; intros st Hg.
  - simpl. now rewrite app_nil_r.
  - simpl in *. unfold StructuredOutput.step.
    destruct (from_json (StructuredOutput.acc_text st ++ chunk)%list)
      as [[vi [[|c r]|]]|] eqn:E; cbn [StructuredOutput.response] in *.
    + specialize (IH (StructuredOutput.mk_state
                        (StructuredOutput.last_response st)
                        (StructuredOutput.acc_text st ++ chunk)%list) Hg).
      destruct (StructuredOutput.run _ _ _ rest) as [st'' later].
      simpl in *. now rewrite yielded_app, yielded_called.
    + destruct Hg as [[d Hd] Hg].
      specialize (IH (StructuredOutput.mk_state (c :: r)
                        (StructuredOutput.acc_text st ++ chunk)%list) Hg).
      destruct (StructuredOutput.run _ _ _ rest) as [st'' later].
      simpl in *. destruct IH as [IH1 IH2]. split.
      * rewrite !yielded_app, yielded_called, yielded_delta.
        rewrite Hd at 1. rewrite skipn_extension. simpl.
        rewrite app_assoc, <- Hd. exact IH1.
      * rewrite IH2.
        destruct (responses from_json _ rest); [reflexivity|].
        apply last_nonempty.
    + specialize (IH (StructuredOutput.mk_state
                        (StructuredOutput.last_response st)
                        (StructuredOutput.acc_text st ++ chunk)%list) Hg).
      destruct (StructuredOutput.run _ _ _ rest) as [st'' later].
      simpl in *. now rewrite yielded_app, yielded_called.
    + specialize (IH (StructuredOutput.mk_state
                        (StructuredOutput.last_response st)
                        (StructuredOutput.acc_text st ++ chunk)%list) Hg).
      destruct (StructuredOutput.run _ _ _ rest) as [st'' later].
      simpl in *. exact IH.
Qed.



End StreamFacts.

(** X19. When every response parsed along the stream is the one before it
    with more text at its end, the deltas [process_structured_output]
    yields, joined, are the last non-empty response parsed (the empty
    text when there was none), with or without a callback. *)
Theorem deltas_rebuild_response {char : Type}
    (from_json : list char -> option (@StructuredOutput.ResponseEmotion char))
    (chunks : list (list char)) (callback : bool) :
  growing [] (responses from_json [] chunks) ->
  yielded (StructuredOutput.process_structured_output from_json chunks
             callback)
  = List.last (responses from_json [] chunks) [].
Proof.
  intros Hg. unfold StructuredOutput.process_structured_output.
  destruct (run_growing from_json callback chunks StructuredOutput.initial Hg)
    as [H1 H2].
  simpl in H1, H2. now rewrite H1.
Qed.

Lemma deltas_rebuild_response_witness :
  yielded
    (StructuredOutput.process_structured_output
       (fun t : list nat =>
          match t with
          | [] | [_] => None
          | _ :: r => Some (StructuredOutput.mk (Some [0]) (Some r))
          end)
       [[7]; [1; 2]; []; [3]] true)
  = [1; 2; 3].
Proof.
  apply (deltas_rebuild_response
           (fun t : list nat =>
              match t with
              | [] | [_] => None
              | _ :: r => Some (StructuredOutput.mk (Some [0]) (Some r))
              end)
           [[7]; [1; 2]; []; [3]] true).
  simpl. repeat split; [exists [1; 2] | exists [] | exists [3]]; reflexivity.
Defined.


(** X21. A parsed response that is not longer than the response before it
    yields nothing, whatever its text, and still becomes the response the
    next delta is measured against. *)
Theorem revised_response_is_silent {char : Type}
    (from_json : list char -> option (@StructuredOutput.ResponseEmotion char))
    (callback : bool) (st : StructuredOutput.state) (chunk : list char)
    (vi : option (list char)) (c : char) (r : list char) :
  from_json (StructuredOutput.acc_text st ++ chunk)%list
  = Some (StructuredOutput.mk vi (Some (c :: r))) ->
  List.length (c :: r) <= List.length (StructuredOutput.last_response st) ->
  yielded (snd (StructuredOutput.step from_json callback st chunk)) = [] /\
  StructuredOutput.last_response
    (fst (StructuredOutput.step from_json callback st chunk)) = c :: r.
Proof.
  intros E Hl. unfold StructuredOutput.step. rewrite E.
  cbn [StructuredOutput.response fst snd StructuredOutput.last_response].
  split; [|reflexivity].
  rewrite yielded_app, yielded_called, yielded_delta.
  apply skipn_all2. exact Hl.
Qed.

Lemma revised_response_is_silent_witness :
  yielded
    (snd (StructuredOutput.step
            (fun t : list nat => Some (StructuredOutput.mk None (Some t)))
            true (StructuredOutput.mk_state [1; 2; 3] [9; 8]) [7])) = [] /\
  StructuredOutput.last_response
    (fst (StructuredOutput.step
            (fun t : list nat => Some (StructuredOutput.mk None (Some t)))
            true (StructuredOutput.mk_state [1; 2; 3] [9; 8]) [7]))
  = [9; 8; 7].
Proof.
  apply (revised_response_is_silent
           (fun t : list nat => Some (StructuredOutput.mk None (Some t)))
           true (StructuredOutput.mk_state [1; 2; 3] [9; 8]) [7] None 9 [8; 7]).
  - reflexivity.
  - simpl. lia.
Defined.

(** ** Environment *)

Lemma getitem_name (e : Environment.t) :
  Environment.getitem (Environment.name e) = Some e.
Proof. now destruct e. Qed.

Lemma getitem_some (key : string) (e : Environment.t) :
  Environment.getitem key = Some e -> key = Environment.name e.
Proof.
  unfold Environment.getitem. intros H. apply find_some in H.
  destruct H as [_ H]. apply String.eqb_eq in H. now symmetry.
Qed.

(** X22. Where [str.upper] is the ASCII upper case on ASCII text,
    [Environment.from_string] returns a member exactly when the upper case
    of the text is the member's name, so in any letter case, and raises
    ValueError naming the text as given otherwise; every member comes back
    from its own value, and PRODUCTION is the only member that is not
    local. *)
Theorem environment_from_string (upper : string -> string) :
  (forall s, is_ascii s = true -> upper s = ascii_upper s) ->
  (forall (s : string) (e : Environment.t),
     is_ascii s = true ->
     (Environment.from_string upper s = inl e
      <-> ascii_upper s = Environment.name e)) /\
  (forall s : string,
     is_ascii s = true ->
     (forall e, ascii_upper s <> Environment.name e) ->
     Environment.from_string upper s
     = inr (Environment.ValueError ("Unknown environment: " ++ s))) /\
  (forall e : Environment.t,
     Environment.from_string upper (Environment.value e) = inl e) /\
  (forall e : Environment.t,
     Environment.is_local e = false <-> e = Environment.PRODUCTION).
Proof.
  intros Hup. split; [|split; [|split]].
  - intros s e Hs. unfold Environment.from_string. rewrite (Hup s Hs). split.
    + destruct (Environment.getitem (ascii_upper s)) as [e'|] eqn:E;
        [|discriminate].
      intros [= <-]. now apply getitem_some.
    + intros ->. now rewrite getitem_name.
  - intros s Hs Hn. unfold Environment.from_string. rewrite (Hup s Hs).
    destruct (Environment.getitem (ascii_upper s)) as [e|] eqn:E;
      [|reflexivity].
    apply getitem_some in E. now destruct (Hn e).
  - intros e. unfold Environment.from_string.
    rewrite Hup by (now destruct e). now destruct e.
  - intros e. destruct e; split; intros H; try discriminate; reflexivity.
Qed.

Lemma environment_from_string_witness :
  Environment.from_string ascii_upper "Development"
  = inl Environment.DEVELOPMENT.
Proof.
  apply (proj1 (environment_from_string ascii_upper (fun s _ => eq_refl))
           "Development" Environment.DEVELOPMENT); reflexivity.
Defined.
